(** * docling_surya: the Surya OCR adapter for the docling pipeline

    A shallow embedding of [src/docling_surya/plugin.py] and the properties
    of its page-to-text-cell conversion.

    Conventions of the embedding.
    - Python numbers that hold coordinates and confidences are exact
      rationals ([Q]); [/] is true division, [==] is [Qeq]. Where a
      property depends on rounding, the same arithmetic is given in IEEE
      754 binary64 (module [Double]).
    - The generator [__call__] over a finite page batch is a function from
      the list of pages to the list of yielded pages.
    - Calls into collaborators (page backend, recognition predictor, logger,
      region selector, cell sink) are recorded in an event log that is
      threaded through the code together with the predictor's own state, so
      that "is never invoked" and "logs one warning" are statements about
      the log. Collaborator calls made while pages are processed are
      assumed to return; the calls of construction and of
      [download_models] may raise. *)

From Stdlib Require Import List String Bool Arith ZArith QArith Lqa Lia.
From Stdlib Require Import Qabs Qminmax Floats.
Import ListNotations.

Close Scope Q_scope.

Local Open Scope string_scope.
Local Open Scope list_scope.

(* ------------------------------------------------------------------ *)
(** ** Host and backend data types *)
(* ------------------------------------------------------------------ *)

(** [docling_core.types.doc]: coordinate origin and bounding box. *)
Inductive CoordOrigin : Type := TOPLEFT | BOTTOMLEFT.

Record BoundingBox : Type := mkBoundingBox {
  l : Q;
  t : Q;
  r : Q;
  b : Q;
  coord_origin : CoordOrigin
}.

(** [x < y] on numbers. *)
Definition Qltb (x y : Q) : bool := negb (Qle_bool y x).

(** [BoundingBox.from_tuple(coord, origin)]: with a top-left origin the
    four numbers of [coord] are taken as (l, t, r, b), with a bottom-left
    origin as (l, b, r, t); two opposite sides that come in the wrong
    order ([r < l], or the bottom above the top) are exchanged. *)
Definition from_tuple (coord : Q * Q * Q * Q) (origin : CoordOrigin)
  : BoundingBox :=
  let '(c0, c1, c2, c3) := coord in
  match origin with
  | TOPLEFT =>
      let '(l, r) := if Qltb c2 c0 then (c2, c0) else (c0, c2) in
      let '(t, b) := if Qltb c3 c1 then (c3, c1) else (c1, c3) in
      {| l := l; t := t; r := r; b := b; coord_origin := origin |}
  | BOTTOMLEFT =>
      let '(l, r) := if Qltb c2 c0 then (c2, c0) else (c0, c2) in
      let '(b, t) := if Qltb c3 c1 then (c3, c1) else (c1, c3) in
      {| l := l; t := t; r := r; b := b; coord_origin := origin |}
  end.

(** [rect.area()]: the absolute width times the absolute height, which is
    zero exactly when two opposite sides coincide. *)
Definition area (bb : BoundingBox) : Q :=
  (Qabs (r bb - l bb) * Qabs (b bb - t bb))%Q.

(** [docling_core.types.doc.page.BoundingRectangle], represented by the box
    it is built from. *)
Record BoundingRectangle : Type := from_bounding_box {
  to_bounding_box : BoundingBox
}.

(** [docling_core.types.doc.page.TextCell], with the fields the adapter
    sets. *)
Record TextCell : Type := mkTextCell {
  index : nat;
  text : string;
  orig : string;
  confidence : Q;
  from_ocr : bool;
  rect : BoundingRectangle
}.

(** The recognition backend's output: a prediction per image, each with
    its text lines; a text line exposes [bbox] (four numbers in pixels of
    the image), [text] and [confidence]. *)
Module surya.
Record TextLine : Type := mkTextLine {
  bbox : Q * Q * Q * Q;
  text : string;
  confidence : Q
}.

Record OCRResult : Type := mkOCRResult {
  text_lines : list TextLine
}.
End surya.

(* ------------------------------------------------------------------ *)
(** ** Options *)
(* ------------------------------------------------------------------ *)

Module SuryaOcrOptions.
(** [kind: ClassVar[Literal["suryaocr"]] = "suryaocr"] *)
Definition kind : string := "suryaocr".

Record t : Type := mk {
  lang : list string;
  use_gpu : option bool;
  model_storage_directory : option string;
  download_enabled : bool
}.

(** [SuryaOcrOptions()] with every field at its default. *)
Definition default : t :=
  {| lang := ["en"];
     use_gpu := None;
     model_storage_directory := None;
     download_enabled := true |}.
End SuryaOcrOptions.

(* ------------------------------------------------------------------ *)
(** ** Construction: [SuryaOcrModel.__init__] *)
(* ------------------------------------------------------------------ *)

(** Exceptions that construction can end in. [ExcInstance cls msg] is an
    instance of the class bound to the name [cls], built with [msg]. *)
Inductive exn : Type :=
| ImportError (module : string)
| OSError
| NameError (name : string)
| ExcInstance (cls : string) (msg : string).

Inductive result (A : Type) : Type :=
| Ok (a : A)
| Raise (e : exn).
Arguments Ok {A} a.
Arguments Raise {A} e.

(** What construction reads from the process: whether
    [local_dir.mkdir(parents=True, exist_ok=True)] succeeds, which
    modules can be imported, and what a call of a named callable of the
    backend raises, if it raises. *)
Record Env : Type := mkEnv {
  mkdir_ok : bool;
  importable : string -> bool;
  raises : string -> option exn
}.

(** The names bound at module level in [plugin.py]: its imports (lines
    1-15), [_log], the two classes and the factory. *)
Definition module_globals : list string :=
  [ "logging"; "os"; "Iterable"; "Path";
    "ClassVar"; "Literal"; "Optional"; "Type";
    "BoundingBox"; "CoordOrigin"; "BoundingRectangle"; "TextCell";
    "AcceleratorOptions"; "Page"; "ConversionResult"; "OcrOptions";
    "settings"; "BaseOcrModel"; "TimeRecorder";
    "_log"; "SuryaOcrOptions"; "SuryaOcrModel"; "ocr_engines" ].

(** The names local to [__init__] when its [except] clause runs. *)
Definition init_locals : list string :=
  [ "self"; "enabled"; "artifacts_path"; "options"; "accelerator_options";
    "local_dir"; "DetectionPredictor"; "FoundationPredictor";
    "RecognitionPredictor"; "exc" ].

(** The exception classes of Python's [builtins] module. *)
Definition builtin_exceptions : list string :=
  [ "BaseException"; "BaseExceptionGroup"; "Exception"; "ExceptionGroup";
    "ArithmeticError"; "AssertionError"; "AttributeError";
    "BlockingIOError"; "BrokenPipeError"; "BufferError"; "BytesWarning";
    "ChildProcessError"; "ConnectionAbortedError"; "ConnectionError";
    "ConnectionRefusedError"; "ConnectionResetError"; "DeprecationWarning";
    "EOFError"; "EncodingWarning"; "EnvironmentError"; "FileExistsError";
    "FileNotFoundError"; "FloatingPointError"; "FutureWarning";
    "GeneratorExit"; "IOError"; "ImportError"; "ImportWarning";
    "IndentationError"; "IndexError"; "InterruptedError";
    "IsADirectoryError"; "KeyError"; "KeyboardInterrupt"; "LookupError";
    "MemoryError"; "ModuleNotFoundError"; "NameError";
    "NotADirectoryError"; "NotImplementedError"; "OSError";
    "OverflowError"; "PendingDeprecationWarning"; "PermissionError";
    "ProcessLookupError"; "RecursionError"; "ReferenceError";
    "ResourceWarning"; "RuntimeError"; "RuntimeWarning";
    "StopAsyncIteration"; "StopIteration"; "SyntaxError"; "SyntaxWarning";
    "SystemError"; "SystemExit"; "TabError"; "TimeoutError"; "TypeError";
    "UnboundLocalError"; "UnicodeDecodeError"; "UnicodeEncodeError";
    "UnicodeError"; "UnicodeTranslateError"; "UnicodeWarning";
    "UserWarning"; "ValueError"; "Warning"; "ZeroDivisionError" ].

(** Name lookup from inside [__init__]: locals, then module globals, then
    builtins. *)
Definition bound (name : string) : bool :=
  existsb (String.eqb name)
          (init_locals ++ module_globals ++ builtin_exceptions).

(** [raise name(msg)]: the class is looked up first; an unbound name raises
    [NameError] in place of the intended exception. *)
Definition raise_instance (name msg : string) : exn :=
  if bound name then ExcInstance name msg else NameError name.

(** The three [from surya.* import ...] statements, in source order. *)
Definition surya_modules : list string :=
  [ "surya.detection"; "surya.foundation"; "surya.recognition" ].

Fixpoint import_modules (env : Env) (mods : list string) : result unit :=
  match mods with
  | [] => Ok tt
  | m :: rest =>
      if importable env m then import_modules env rest
      else Raise (ImportError m)
  end.

(** The body of the [try] block (lines 57-63). *)
Definition try_body (env : Env) : result unit :=
  if mkdir_ok env then import_modules env surya_modules
  else Raise OSError.

Definition install_hint : string :=
  "surya-ocr not installed. Install via `uv add surya-ocr` or `pip install surya-ocr`.".

(** The adapter object: [enabled] from the base class, [scale], and
    whether the predictor attributes were set. *)
Record SuryaOcrModel : Type := mkSuryaOcrModel {
  enabled : bool;
  scale : Z;
  has_predictors : bool
}.

(** The constructors called at lines 69-71, in source order:
    [FoundationPredictor()], [RecognitionPredictor(foundation)],
    [DetectionPredictor()]. *)
Definition predictor_classes : list string :=
  [ "FoundationPredictor"; "RecognitionPredictor"; "DetectionPredictor" ].

(** Calls made one after the other, outside any [try]: the first
    exception ends them. *)
Fixpoint call_all (env : Env) (names : list string) : result unit :=
  match names with
  | [] => Ok tt
  | name :: rest =>
      match raises env name with
      | Some e => Raise e
      | None => call_all env rest
      end
  end.

(** [__init__] (lines 39-71). The base class stores [enabled]; [scale] is
    set to 3 whatever [enabled] is; an enabled adapter then runs the [try]
    block, whose [ImportError] is answered by [raise ImportOcrError(...)],
    any other exception propagating as it is; after the [try] the three
    predictors are constructed, and what a constructor raises leaves
    [__init__] as it is. *)
Definition __init__ (enabled : bool) (env : Env) : result SuryaOcrModel :=
  let scale := 3%Z in
  if enabled then
    match try_body env with
    | Raise (ImportError _) =>
        Raise (raise_instance "ImportOcrError" install_hint)
    | Raise e => Raise e
    | Ok _ =>
        match call_all env predictor_classes with
        | Raise e => Raise e
        | Ok _ =>
            Ok {| enabled := true; scale := scale; has_predictors := true |}
        end
    end
  else
    Ok {| enabled := false; scale := scale; has_predictors := false |}.

(** [get_options_type] and the plugin factory [ocr_engines]. Classes are
    values of an enumeration. *)
Inductive ModelClass : Type := SuryaOcrModelClass.
Inductive OptionsClass : Type := SuryaOcrOptionsClass.

Definition class_kind (c : OptionsClass) : string :=
  match c with SuryaOcrOptionsClass => SuryaOcrOptions.kind end.

Definition get_options_type (cls : ModelClass) : OptionsClass :=
  match cls with SuryaOcrModelClass => SuryaOcrOptionsClass end.

Definition ocr_engines : list (string * list ModelClass) :=
  [ ("ocr_engines", [SuryaOcrModelClass]) ].

(** Dictionary lookup [d[key]] on the factory's result. *)
Fixpoint getitem {A : Type} (d : list (string * A)) (key : string)
  : option A :=
  match d with
  | [] => None
  | (k, v) :: rest => if String.eqb k key then Some v else getitem rest key
  end.

(* ------------------------------------------------------------------ *)
(** ** Page processing: [SuryaOcrModel.__call__] *)
(* ------------------------------------------------------------------ *)

(** [enumerate(xs)] *)
Definition enumerate {A : Type} (xs : list A) : list (nat * A) :=
  combine (seq 0 (List.length xs)) xs.

(** One entry of [result]: [(tl.bbox, tl.text, tl.confidence)]. *)
Definition Triple : Type := (Q * Q * Q * Q) * string * Q.

(** The comprehension of lines 119-123: every text line of every
    prediction, in order. *)
Definition flatten_preds (preds : list surya.OCRResult) : list Triple :=
  flat_map
    (fun pred =>
       map (fun tl => (surya.bbox tl, surya.text tl, surya.confidence tl))
           (surya.text_lines pred))
    preds.

(** The element expression of the comprehension of lines 127-147. *)
Definition text_cell (self : SuryaOcrModel) (rect : BoundingBox)
           (entry : nat * Triple) : TextCell :=
  let '(i, (bbox, txt, conf)) := entry in
  let '(bbox0, bbox1, bbox2, bbox3) := bbox in
  {| index := i;
     text := txt;
     orig := txt;
     confidence := conf;
     from_ocr := true;
     rect :=
       from_bounding_box
         (from_tuple
            (((bbox0 / inject_Z (scale self)) + l rect)%Q,
             ((bbox1 / inject_Z (scale self)) + t rect)%Q,
             ((bbox2 / inject_Z (scale self)) + l rect)%Q,
             ((bbox3 / inject_Z (scale self)) + t rect)%Q)
            TOPLEFT) |}.

Section Adapter.

(** The types of the collaborators: rendered images, pages, and the
    internal state of the recognition predictor. *)
Variables Image Page PredState : Type.

(** [page._backend]: validity and rendering of a crop at a scale. *)
Record PageBackend : Type := mkPageBackend {
  is_valid : bool;
  get_page_image : Z -> BoundingBox -> Image
}.

(** What the adapter calls but does not define: the page's backend, the
    base class's region selector and cell sink, the recognition
    predictor ([self.recognition_predictor([img], det_predictor=...)]
    gives the predictions and the predictor's state after the call), and
    the flag [settings.debug.visualize_ocr]. *)
Record Host : Type := mkHost {
  _backend : Page -> option PageBackend;
  get_ocr_rects : Page -> list BoundingBox;
  post_process_cells : list TextCell -> Page -> Page;
  recognition_predictor :
    list Image -> PredState -> list surya.OCRResult * PredState;
  visualize_ocr : bool
}.

Variable host : Host.

(** Calls that leave the adapter, in the order they are made. *)
Inductive Event : Type :=
| GetOcrRects
| GetPageImage (scale : Z) (cropbox : BoundingBox)
| Recognize (images : list Image)
| LogWarning (msg : string)
| PostProcessCells (cells : list TextCell)
| DrawOcrRectsAndCells.

Record World : Type := mkWorld {
  log : list Event;
  pred_state : PredState
}.

Definition record (e : Event) (w : World) : World :=
  {| log := log w ++ [e]; pred_state := pred_state w |}.

Definition empty_result_warning : string :=
  "SuryaOCR returned empty result!".

(** The body of [for rect in ocr_rects] (lines 107-148), as a step on
    [all_cells] and the world. *)
Definition ocr_rect (self : SuryaOcrModel) (backend : PageBackend)
           (rect : BoundingBox) (acc : list TextCell * World)
  : list TextCell * World :=
  let '(all_cells, w) := acc in
  if Qeq_bool (area rect) 0%Q then (all_cells, w)
  else
    let img := get_page_image backend (scale self) rect in
    let w := record (GetPageImage (scale self) rect) w in
    let '(preds, ps) :=
      recognition_predictor host [img] (pred_state w) in
    let w := {| log := log w ++ [Recognize [img]]; pred_state := ps |} in
    match preds with
    | [] => (all_cells, record (LogWarning empty_result_warning) w)
    | _ :: _ =>
        let result := flatten_preds preds in
        let cells := map (text_cell self rect) (enumerate result) in
        (all_cells ++ cells, w)
    end.

(** The whole [for rect in ocr_rects] loop. *)
Definition ocr_rects_loop (self : SuryaOcrModel) (backend : PageBackend)
           (ocr_rects : list BoundingBox) (acc : list TextCell * World)
  : list TextCell * World :=
  fold_left (fun acc rect => ocr_rect self backend rect acc) ocr_rects acc.

(** The body of [for page in page_batch] (lines 98-155): the yielded
    page and the world after it. [TimeRecorder] only measures time and
    [all_cells] starts empty for every page. *)
Definition ocr_page (self : SuryaOcrModel) (page : Page) (w : World)
  : Page * World :=
  match _backend host page with
  | None => (page, w)
  | Some backend =>
      if negb (is_valid backend) then (page, w)
      else
        let ocr_rects := get_ocr_rects host page in
        let w := record GetOcrRects w in
        let '(all_cells, w) :=
          ocr_rects_loop self backend ocr_rects ([], w) in
        let page := post_process_cells host all_cells page in
        let w := record (PostProcessCells all_cells) w in
        let w := if visualize_ocr host then record DrawOcrRectsAndCells w
                 else w in
        (page, w)
  end.

Fixpoint ocr_pages (self : SuryaOcrModel) (page_batch : list Page)
         (w : World) : list Page * World :=
  match page_batch with
  | [] => ([], w)
  | page :: rest =>
      let '(page', w') := ocr_page self page w in
      let '(out, w'') := ocr_pages self rest w' in
      (page' :: out, w'')
  end.

(** [__call__(conv_res, page_batch)]: the pages yielded, in order, and
    the world after the batch is exhausted. *)
Definition __call__ (self : SuryaOcrModel) (page_batch : list Page)
           (w : World) : list Page * World :=
  if negb (enabled self) then (page_batch, w)
  else ocr_pages self page_batch w.

(** *** Observations on a run *)

(** How often the recognition predictor was invoked. *)
Fixpoint recognize_calls (lg : list Event) : nat :=
  match lg with
  | [] => 0
  | Recognize _ :: rest => S (recognize_calls rest)
  | _ :: rest => recognize_calls rest
  end.

(** How many warnings were logged. *)
Fixpoint warnings (lg : list Event) : nat :=
  match lg with
  | [] => 0
  | LogWarning _ :: rest => S (warnings rest)
  | _ :: rest => warnings rest
  end.

(** The same world with nothing logged yet. *)
Definition fresh (ps : PredState) : World :=
  {| log := []; pred_state := ps |}.

(** The cells each region of the loop contributes, one list per region
    in region order, when the predictor starts in state [ps]. *)
Fixpoint page_runs (self : SuryaOcrModel) (backend : PageBackend)
         (ocr_rects : list BoundingBox) (ps : PredState)
  : list (list TextCell) :=
  match ocr_rects with
  | [] => []
  | rect :: rest =>
      let '(cells, w) := ocr_rect self backend rect ([], fresh ps) in
      cells :: page_runs self backend rest (pred_state w)
  end.

End Adapter.

Arguments is_valid {Image} _.
Arguments get_page_image {Image} _ _ _.
Arguments _backend {Image Page PredState} _ _.
Arguments get_ocr_rects {Image Page PredState} _ _.
Arguments post_process_cells {Image Page PredState} _ _ _.
Arguments recognition_predictor {Image Page PredState} _ _ _.
Arguments visualize_ocr {Image Page PredState} _.
Arguments GetOcrRects {Image}.
Arguments GetPageImage {Image} scale cropbox.
Arguments Recognize {Image} images.
Arguments LogWarning {Image} msg.
Arguments PostProcessCells {Image} cells.
Arguments DrawOcrRectsAndCells {Image}.
Arguments mkWorld {Image PredState} log pred_state.
Arguments log {Image PredState} _.
Arguments pred_state {Image PredState} _.
Arguments record {Image PredState} e w.
Arguments fresh {Image PredState} ps.
Arguments recognize_calls {Image} lg.
Arguments warnings {Image} lg.
Arguments ocr_rect {Image Page PredState} host self backend rect acc.
Arguments ocr_rects_loop {Image Page PredState} host self backend ocr_rects acc.
Arguments page_runs {Image Page PredState} host self backend ocr_rects ps.
Arguments ocr_page {Image Page PredState} host self page w.
Arguments ocr_pages {Image Page PredState} host self page_batch w.
Arguments __call__ {Image Page PredState} host self page_batch w.

(* ------------------------------------------------------------------ *)
(** ** Vocabulary of the properties *)
(* ------------------------------------------------------------------ *)

(** The indices of a list of cells are 0, 1, 2, ... in order. *)
Definition contiguous_from_zero (cells : list TextCell) : Prop :=
  map index cells = seq 0 (List.length cells).

Definition cell_box (cell : TextCell) : BoundingBox :=
  to_bounding_box (rect cell).

(** Equality of boxes up to the representation of their rational sides. *)
Definition box_equiv (x y : BoundingBox) : Prop :=
  (l x == l y /\ t x == t y /\ r x == r y /\ b x == b y)%Q
  /\ coord_origin x = coord_origin y.

(** Every side of [bx] lies between the sides of [pg]. *)
Definition inside (pg bx : BoundingBox) : Prop :=
  (l pg <= l bx <= r pg /\ l pg <= r bx <= r pg /\
   t pg <= t bx <= b pg /\ t pg <= b bx <= b pg)%Q.


(** The image rendered for a region (line 110) and what the predictor
    answers for it when called in state [ps] (lines 111-113). *)
Definition render {Image : Type} (self : SuryaOcrModel)
           (backend : PageBackend Image) (rect : BoundingBox) : Image :=
  get_page_image backend (scale self) rect.

Definition answer {Image Page PredState : Type}
           (host : Host Image Page PredState) (self : SuryaOcrModel)
           (backend : PageBackend Image) (rect : BoundingBox)
           (ps : PredState) : list surya.OCRResult * PredState :=
  recognition_predictor host [render self backend rect] ps.

(** The box the specification writes for a triple: the local box divided
    by 3 and moved by the region's origin, in top-left coordinates. *)
Definition formula_box (rect : BoundingBox) (bbox : Q * Q * Q * Q)
  : BoundingBox :=
  let '(x0, y0, x1, y1) := bbox in
  {| l := x0 / 3 + l rect;
     t := y0 / 3 + t rect;
     r := x1 / 3 + l rect;
     b := y1 / 3 + t rect;
     coord_origin := TOPLEFT |}.

(** The same box with its sides put in order: left and right exchanged
    when the right one is the smaller, top and bottom likewise. *)
Definition ordered_box (bx : BoundingBox) : BoundingBox :=
  {| l := Qmin (l bx) (r bx);
     t := Qmin (t bx) (b bx);
     r := Qmax (l bx) (r bx);
     b := Qmax (t bx) (b bx);
     coord_origin := coord_origin bx |}.

(** The box of a cell as the host's constructor makes it from the four
    numbers of the formula. *)
Definition page_space_box (rect : BoundingBox) (bbox : Q * Q * Q * Q)
  : BoundingBox :=
  let '(x0, y0, x1, y1) := bbox in
  from_tuple
    ((x0 / 3 + l rect)%Q, (y0 / 3 + t rect)%Q,
     (x1 / 3 + l rect)%Q, (y1 / 3 + t rect)%Q)
    TOPLEFT.

(** The cell described for the [i]-th triple of a region: that box; the
    recognised text as text and as original text; marked as coming from
    OCR. *)
Definition page_space_cell (rect : BoundingBox) (entry : nat * Triple)
  : TextCell :=
  let '(i, (bbox, txt, conf)) := entry in
  {| index := i;
     text := txt;
     orig := txt;
     confidence := conf;
     from_ocr := true;
     rect := from_bounding_box (page_space_box rect bbox) |}.

(** The regions of a list for which the loop does not [continue] at
    line 108. *)
Definition processed (ocr_rects : list BoundingBox) : list BoundingBox :=
  filter (fun rect => negb (Qeq_bool (area rect) 0%Q)) ocr_rects.

(** The kinds under which the classes returned by the factory are
    registered: [cls.get_options_type().kind] for each class under the key
    ["ocr_engines"]. *)
(** The identifier under which the example asks the host for the engine:
    [ocr_model="suryaocr"] in [examples/docling_with_custom_models.py]. *)
Definition example_ocr_model : string := "suryaocr".

Definition registered_kinds : list string :=
  match getitem ocr_engines "ocr_engines" with
  | Some classes => map (fun cls => class_kind (get_options_type cls)) classes
  | None => []
  end.

(* ------------------------------------------------------------------ *)
(** ** A concrete host *)
(* ------------------------------------------------------------------ *)

(** A small host on which the adapter can be run: an image is the scale
    and crop it was rendered with, a page is the state of its backend
    (absent, invalid or valid) with its OCR regions, and the predictor
    counts its calls. *)
Module Sample.

Definition Image : Type := Z * BoundingBox.

Record Page : Type := mkPage {
  backend_valid : option bool;
  regions : list BoundingBox;
  sunk : list TextCell
}.

Definition backend (valid : bool) : PageBackend Image :=
  {| is_valid := valid; get_page_image := fun scale cropbox => (scale, cropbox) |}.

Definition hello : surya.TextLine :=
  {| surya.bbox := (30, 60, 90, 120)%Q;
     surya.text := "Hello from Surya";
     surya.confidence := 0.95%Q |}.

(** One prediction per image: nothing at all for a crop that starts at
    the left page edge, a prediction without lines for a crop that starts
    at the top edge, one line otherwise. *)
Definition predict (img : Image) : list surya.OCRResult :=
  let '(_, crop) := img in
  if Qeq_bool (l crop) 0%Q then []
  else if Qeq_bool (t crop) 0%Q then [ {| surya.text_lines := [] |} ]
  else [ {| surya.text_lines := [hello] |} ].

Definition host : Host Image Page nat :=
  {| _backend := fun page => option_map backend (backend_valid page);
     get_ocr_rects := regions;
     post_process_cells :=
       fun cells page =>
         {| backend_valid := backend_valid page;
            regions := regions page;
            sunk := cells |};
     recognition_predictor :=
       fun images calls => (flat_map predict images, S calls);
     visualize_ocr := false |}.

Definition box (x0 y0 x1 y1 : Q) : BoundingBox :=
  {| l := x0; t := y0; r := x1; b := y1; coord_origin := TOPLEFT |}.

Definition region_a : BoundingBox := box 50 100 150 200.
Definition region_b : BoundingBox := box 20 210 120 290.
Definition region_flat : BoundingBox := box 10 40 110 40.
Definition region_left : BoundingBox := box 0 10 40 90.
Definition region_top : BoundingBox := box 10 0 190 50.

Definition page_of (rects : list BoundingBox) : Page :=
  {| backend_valid := Some true; regions := rects; sunk := [] |}.

Definition no_backend : Page :=
  {| backend_valid := None; regions := [region_a]; sunk := [] |}.

Definition invalid_backend : Page :=
  {| backend_valid := Some false; regions := [region_a]; sunk := [] |}.

Definition start : World Image nat := fresh 0.

(** The environment in which none of the backend's modules can be
    imported, and the one in which all can. *)
Definition env_missing : Env :=
  {| mkdir_ok := true; importable := fun _ => false;
     raises := fun _ => None |}.

Definition env_installed : Env :=
  {| mkdir_ok := true; importable := fun _ => true;
     raises := fun _ => None |}.

Definition model : SuryaOcrModel :=
  {| enabled := true; scale := 3; has_predictors := true |}.

Definition disabled_model : SuryaOcrModel :=
  {| enabled := false; scale := 3; has_predictors := false |}.

End Sample.


(* ------------------------------------------------------------------ *)
(** ** The process around construction and [download_models] *)
(* ------------------------------------------------------------------ *)

(** A [pathlib.Path] as the list of its components; [p / name]. *)
Definition Path : Type := list string.

Definition joinpath (p : Path) (name : string) : Path := p ++ [name].

(** [SuryaOcrModel._model_repo_folder] *)
Definition _model_repo_folder : string := "SuryaOcr".

(** [settings.cache_dir / "models" / SuryaOcrModel._model_repo_folder] *)
Definition default_local_dir (cache_dir : Path) : Path :=
  joinpath (joinpath cache_dir "models") _model_repo_folder.

(** [d[key] = value] on a dictionary kept as an association list: the
    entry of [key] is replaced where it stands, a new key goes last. *)
Fixpoint setitem {A : Type} (d : list (string * A)) (key : string)
         (value : A) : list (string * A) :=
  match d with
  | [] => [(key, value)]
  | (k, v) :: rest =>
      if String.eqb k key then (key, value) :: rest
      else (k, v) :: setitem rest key value
  end.

(** What construction and [download_models] change outside the adapter:
    [os.environ], the directories a successful [mkdir] was asked for, and
    how often [surya.models.load_predictors] was called. What the imported
    modules and the backend's callables do to the process on their own is
    not part of it. *)
Record Process : Type := mkProcess {
  environ : list (string * string);
  made_dirs : list Path;
  loaded_predictors : nat
}.

Section ProcessModel.

(** [settings.cache_dir] and [str] on paths. *)
Variable cache_dir : Path.
Variable path_str : Path -> string.

(** [local_dir.mkdir(parents=True, exist_ok=True)] followed by
    [os.environ["MODEL_CACHE_DIR"] = str(local_dir)], once the [mkdir] has
    succeeded. *)
Definition prepare_cache (local_dir : Path) (p : Process) : Process :=
  {| environ := setitem (environ p) "MODEL_CACHE_DIR" (path_str local_dir);
     made_dirs := made_dirs p ++ [local_dir];
     loaded_predictors := loaded_predictors p |}.

(** [__init__] (lines 39-71) with its effects on the process: the outcome
    and the process after it. *)
Definition init_run (enabled : bool) (env : Env) (p : Process)
  : result SuryaOcrModel * Process :=
  let scale := 3%Z in
  if enabled then
    let local_dir := default_local_dir cache_dir in
    if mkdir_ok env then
      let p := prepare_cache local_dir p in
      match import_modules env surya_modules with
      | Raise (ImportError _) =>
          (Raise (raise_instance "ImportOcrError" install_hint), p)
      | Raise e => (Raise e, p)
      | Ok _ =>
          match call_all env predictor_classes with
          | Raise e => (Raise e, p)
          | Ok _ =>
              (Ok {| enabled := true; scale := scale;
                     has_predictors := true |},
               p)
          end
      end
    else (Raise OSError, p)
  else
    (Ok {| enabled := false; scale := scale; has_predictors := false |}, p).

(** [download_models(local_dir)] (lines 74-87). [cuda] is the answer of
    [torch.cuda.is_available()] when it returns; that call and
    [load_predictors()] may raise, and what they raise leaves the function
    as it is. The count of [load_predictors] rises when it is called. *)
Definition download_models (local_dir : option Path) (env : Env)
           (cuda : bool) (p : Process) : result Path * Process :=
  let local_dir :=
    match local_dir with
    | None => default_local_dir cache_dir
    | Some dir => dir
    end in
  if mkdir_ok env then
    let p := prepare_cache local_dir p in
    if importable env "torch" then
      match raises env "torch.cuda.is_available" with
      | Some e => (Raise e, p)
      | None =>
          if cuda then
            if importable env "surya.models" then
              let p := {| environ := environ p;
                          made_dirs := made_dirs p;
                          loaded_predictors := S (loaded_predictors p) |} in
              match raises env "load_predictors" with
              | Some e => (Raise e, p)
              | None => (Ok local_dir, p)
              end
            else (Raise (ImportError "surya.models"), p)
          else (Ok local_dir, p)
      end
    else (Raise (ImportError "torch"), p)
  else (Raise OSError, p).

End ProcessModel.

(* ------------------------------------------------------------------ *)
(** ** More observations on a run *)
(* ------------------------------------------------------------------ *)

(** The image batches the predictor was called with, in call order. *)
Fixpoint recognize_batches {Image : Type} (lg : list (Event Image))
  : list (list Image) :=
  match lg with
  | [] => []
  | Recognize images :: rest => images :: recognize_batches rest
  | _ :: rest => recognize_batches rest
  end.

(** The scale and crop of every rendering asked of the backend. *)
Fixpoint renderings {Image : Type} (lg : list (Event Image))
  : list (Z * BoundingBox) :=
  match lg with
  | [] => []
  | GetPageImage scale cropbox :: rest =>
      (scale, cropbox) :: renderings rest
  | _ :: rest => renderings rest
  end.

(** The runs of a page that hold at least one cell. *)
Definition contributing (runs : list (list TextCell))
  : list (list TextCell) :=
  filter (fun run => negb (Nat.eqb (List.length run) 0)) runs.

(** The text lines the predictor returns over a region list, in the
    order the loop meets them: region by region, skipping regions of zero
    area, prediction by prediction, line by line; the predictor starts in
    state [ps] and is carried from region to region. *)
Fixpoint region_lines {Image Page PredState : Type}
         (host : Host Image Page PredState) (self : SuryaOcrModel)
         (backend : PageBackend Image) (regions : list BoundingBox)
         (ps : PredState) : list surya.TextLine :=
  match regions with
  | [] => []
  | region :: rest =>
      if Qeq_bool (area region) 0%Q
      then region_lines host self backend rest ps
      else
        let '(preds, ps') := answer host self backend region ps in
        List.concat (map surya.text_lines preds) ++
        region_lines host self backend rest ps'
  end.

(** The host with [settings.debug.visualize_ocr] set to [flag]. *)
Definition with_visualize_ocr {Image Page PredState : Type} (flag : bool)
           (host : Host Image Page PredState) : Host Image Page PredState :=
  {| _backend := _backend host;
     get_ocr_rects := get_ocr_rects host;
     post_process_cells := post_process_cells host;
     recognition_predictor := recognition_predictor host;
     visualize_ocr := flag |}.

(** What the page loop logs after the region loop (lines 150-153). *)
Definition page_epilogue {Image : Type} (flag : bool)
           (all_cells : list TextCell) : list (Event Image) :=
  PostProcessCells all_cells ::
  (if flag then [DrawOcrRectsAndCells] else []).

(** A yielded page is the input page itself or what the cell sink made
    of it. *)
Definition yielded_from {Image Page PredState : Type}
           (host : Host Image Page PredState) (page page' : Page) : Prop :=
  page' = page \/ exists cells, page' = post_process_cells host cells page.

(* ------------------------------------------------------------------ *)
(** ** The predictor of the tests *)
(* ------------------------------------------------------------------ *)

(** [tests/test_surya_ocr.py], fixture [mock_surya_imports]: the classes
    that stand in for the recognition backend. *)
Module Mock.

(** [MockTextLine()] with the attributes the adapter reads. *)
Definition MockTextLine : surya.TextLine :=
  {| surya.bbox := (10, 20, 100, 40)%Q;
     surya.text := "Hello from Surya";
     surya.confidence := 0.95%Q |}.

(** [MockResult()] *)
Definition MockResult : surya.OCRResult :=
  {| surya.text_lines := [MockTextLine] |}.

(** [MockPredictor.__call__(images, det_predictor)]:
    [[MockResult() for _ in images]]. *)
Definition MockPredictor {Image : Type} (images : list Image)
  : list surya.OCRResult :=
  map (fun _ => MockResult) images.

(** The one triple the adapter reads off a [MockResult]. *)
Definition triple : Triple :=
  (surya.bbox MockTextLine, surya.text MockTextLine,
   surya.confidence MockTextLine).

(** The sample host with the predictor replaced by the mock. *)
Definition host : Host Sample.Image Sample.Page nat :=
  {| _backend := _backend Sample.host;
     get_ocr_rects := get_ocr_rects Sample.host;
     post_process_cells := post_process_cells Sample.host;
     recognition_predictor := fun images calls => (MockPredictor images, calls);
     visualize_ocr := true |}.

End Mock.

(** Sample processes and paths. *)
Module SampleProcess.

Definition cache_dir : Path := ["home"; "user"; ".cache"; "docling"].

Definition path_str (p : Path) : string := String.concat "/" p.

Definition initial : Process :=
  {| environ := [("HOME", "home/user"); ("MODEL_CACHE_DIR", "elsewhere")];
     made_dirs := [];
     loaded_predictors := 0 |}.

(** A machine with torch but without the recognition backend. *)
Definition env_torch_only : Env :=
  {| mkdir_ok := true;
     importable := fun name => String.eqb name "torch";
     raises := fun _ => None |}.

(** A machine on which the cache directory cannot be created. *)
Definition env_readonly : Env :=
  {| mkdir_ok := false; importable := fun _ => true;
     raises := fun _ => None |}.

(** A machine with everything installed on which the first predictor
    fails to initialise. *)
Definition env_broken_model : Env :=
  {| mkdir_ok := true; importable := fun _ => true;
     raises := fun name =>
       if String.eqb name "FoundationPredictor"
       then Some (ExcInstance "RuntimeError" "model files missing")
       else None |}.

End SampleProcess.

(* ------------------------------------------------------------------ *)
(** ** The coordinate arithmetic in binary64 *)
(* ------------------------------------------------------------------ *)

(** The expression of lines 134-144 as Python evaluates it: every number
    a double, [/] and [+] rounding to the nearest double, and
    [BoundingBox.from_tuple] with a top-left origin. *)
Module Double.

Record Box : Type := mkBox {
  l : float;
  t : float;
  r : float;
  b : float
}.

Definition from_tuple (c0 c1 c2 c3 : float) : Box :=
  let '(l, r) := if PrimFloat.ltb c2 c0 then (c2, c0) else (c0, c2) in
  let '(t, b) := if PrimFloat.ltb c3 c1 then (c3, c1) else (c1, c3) in
  {| l := l; t := t; r := r; b := b |}.

(** The box of the cell built at [scale] for the local box [bbox] of a
    region. *)
Definition cell_box (scale : float) (region : Box)
           (bbox : float * float * float * float) : Box :=
  let '(bbox0, bbox1, bbox2, bbox3) := bbox in
  from_tuple (bbox0 / scale + l region) (bbox1 / scale + t region)
             (bbox2 / scale + l region) (bbox3 / scale + t region).

Definition between (lo x hi : float) : bool :=
  PrimFloat.leb lo x && PrimFloat.leb x hi.

(** Every side of [bx] lies between the sides of [pg]. *)
Definition inside (pg bx : Box) : bool :=
  between (l pg) (l bx) (r pg) && between (l pg) (r bx) (r pg) &&
  between (t pg) (t bx) (b pg) && between (t pg) (b bx) (b pg).

(** The rational a double stands for; infinities and NaN stand for
    none. *)
Definition to_Q (x : float) : option Q :=
  match Prim2SF x with
  | S754_zero _ => Some 0%Q
  | S754_finite sign m e =>
      let v := (inject_Z (Z.pos m) * Qpower 2 e)%Q in
      Some (if sign then Qopp v else v)
  | _ => None
  end.

(** A box of doubles as the box of the rationals they stand for. *)
Definition exact (bx : Box) : option BoundingBox :=
  match to_Q (l bx), to_Q (t bx), to_Q (r bx), to_Q (b bx) with
  | Some ql, Some qt, Some qr, Some qb =>
      Some (mkBoundingBox ql qt qr qb TOPLEFT)
  | _, _, _, _ => None
  end.




End Double.

(* ------------------------------------------------------------------ *)
(** ** Properties *)
(* ------------------------------------------------------------------ *)

Lemma map_fst_enumerate_from {A : Type} (xs : list A) (k : nat) :
  map fst (combine (seq k (List.length xs)) xs) = seq k (List.length xs).
Proof.
  revert k; induction xs as [|x xs IH]; intro k; simpl.
  - reflexivity.
  - now rewrite IH.
Qed.

Lemma length_enumerate {A : Type} (xs : list A) :
  List.length (enumerate xs) = List.length xs.
Proof.
  unfold enumerate. rewrite length_combine, length_seq. apply Nat.min_id.
Qed.

Lemma index_text_cell (self : SuryaOcrModel) (rect : BoundingBox)
      (entry : nat * Triple) :
  index (text_cell self rect entry) = fst entry.
Proof.
  destruct entry as [i [[[[[x0 y0] x1] y1] txt] conf]]. reflexivity.
Qed.

(** The cells built from one region's result are numbered from 0. *)
Lemma region_cells_contiguous (self : SuryaOcrModel) (rect : BoundingBox)
      (result : list Triple) :
  contiguous_from_zero (map (text_cell self rect) (enumerate result)).
Proof.
  unfold contiguous_from_zero.
  rewrite map_map, length_map, length_enumerate.
  rewrite (map_ext _ fst (index_text_cell self rect)).
  apply map_fst_enumerate_from.
Qed.

Lemma indices_of_runs (runs : list (list TextCell)) :
  Forall contiguous_from_zero runs ->
  map index (List.concat runs) =
  flat_map (fun run => seq 0 (List.length run)) runs.
Proof.
  induction 1 as [|run runs Hrun _ IH]; simpl.
  - reflexivity.
  - now rewrite map_app, Hrun, IH.
Qed.

Lemma Qltb_true_iff (x y : Q) : Qltb x y = true <-> (x < y)%Q.
Proof.
  unfold Qltb. rewrite negb_true_iff.
  destruct (Qle_bool y x) eqn:E.
  - apply Qle_bool_iff in E. split; [discriminate|]. intro H. lra.
  - split; [intros _|reflexivity].
    apply Qnot_le_lt. intro H. apply Qle_bool_iff in H. congruence.
Qed.

Lemma Qltb_false_iff (x y : Q) : Qltb x y = false <-> (y <= x)%Q.
Proof.
  destruct (Qltb x y) eqn:E.
  - apply Qltb_true_iff in E. split; [discriminate|]. intro H. lra.
  - split; [intros _|reflexivity].
    apply Qnot_lt_le. intro H. apply Qltb_true_iff in H. congruence.
Qed.

(** With a top-left origin the constructor gives the four numbers in
    order: left and top the smaller, right and bottom the larger of each
    pair. *)
Lemma from_tuple_topleft (c0 c1 c2 c3 : Q) :
  box_equiv (from_tuple (c0, c1, c2, c3) TOPLEFT)
            (ordered_box {| l := c0; t := c1; r := c2; b := c3;
                            coord_origin := TOPLEFT |}).
Proof.
  unfold box_equiv, ordered_box, from_tuple. cbn [l t r b coord_origin].
  destruct (Q.min_spec c0 c2) as [[Hx Hmin]|[Hx Hmin]];
    destruct (Q.max_spec c0 c2) as [[Hx' Hmax]|[Hx' Hmax]];
    destruct (Q.min_spec c1 c3) as [[Hy Hmin']|[Hy Hmin']];
    destruct (Q.max_spec c1 c3) as [[Hy' Hmax']|[Hy' Hmax']];
    rewrite Hmin, Hmax, Hmin', Hmax';
    destruct (Qltb c2 c0) eqn:E1; destruct (Qltb c3 c1) eqn:E2;
    try apply Qltb_true_iff in E1; try apply Qltb_false_iff in E1;
    try apply Qltb_true_iff in E2; try apply Qltb_false_iff in E2;
    cbn [l t r b coord_origin];
    (split; [repeat split; lra | reflexivity]).
Qed.

(** Numbers already in order are kept where they are. *)
Lemma from_tuple_topleft_in_order (c0 c1 c2 c3 : Q) :
  (c0 <= c2)%Q -> (c1 <= c3)%Q ->
  from_tuple (c0, c1, c2, c3) TOPLEFT =
  {| l := c0; t := c1; r := c2; b := c3; coord_origin := TOPLEFT |}.
Proof.
  intros Hx Hy. unfold from_tuple.
  apply Qltb_false_iff in Hx. apply Qltb_false_iff in Hy.
  now rewrite Hx, Hy.
Qed.

Lemma text_cell_spec (self : SuryaOcrModel) (rect : BoundingBox)
      (entry : nat * Triple) :
  scale self = 3%Z ->
  text_cell self rect entry = page_space_cell rect entry.
Proof.
  intro Hs. destruct entry as [i [[[[[x0 y0] x1] y1] txt] conf]].
  unfold text_cell, page_space_cell, page_space_box, from_tuple.
  now rewrite Hs.
Qed.


Lemma Qabs_zero_iff (x : Q) : (Qabs x == 0 <-> x == 0)%Q.
Proof.
  split.
  - apply Qabs_case; intros; lra.
  - intro H. rewrite H. reflexivity.
Qed.

Lemma area_zero_iff (rect : BoundingBox) :
  (area rect == 0 <-> l rect == r rect \/ t rect == b rect)%Q.
Proof.
  unfold area. split.
  - intro H. apply Qmult_integral in H.
    destruct H as [H|H]; apply (proj1 (Qabs_zero_iff _)) in H;
      [left|right]; lra.
  - intros [H|H].
    + assert (H0 : (Qabs (r rect - l rect) == 0)%Q)
        by (apply Qabs_zero_iff; lra).
      rewrite H0. ring.
    + assert (H0 : (Qabs (b rect - t rect) == 0)%Q)
        by (apply Qabs_zero_iff; lra).
      rewrite H0. ring.
Qed.

Lemma init_scale (en : bool) (env : Env) (self : SuryaOcrModel) :
  __init__ en env = Ok self -> scale self = 3%Z.
Proof.
  unfold __init__. destruct en.
  - destruct (try_body env) as [u|e].
    + destruct (call_all env predictor_classes) as [u'|e'].
      * intro H; injection H as <-; reflexivity.
      * discriminate.
    + destruct e; discriminate.
  - intro H; injection H as <-; reflexivity.
Qed.

Lemma init_enabled (en : bool) (env : Env) (self : SuryaOcrModel) :
  __init__ en env = Ok self -> enabled self = en.
Proof.
  unfold __init__. destruct en.
  - destruct (try_body env) as [u|e].
    + destruct (call_all env predictor_classes) as [u'|e'].
      * intro H; injection H as <-; reflexivity.
      * discriminate.
    + destruct e; discriminate.
  - intro H; injection H as <-; reflexivity.
Qed.

Section Properties.

Context {Image Page PredState : Type}.
Variable host : Host Image Page PredState.

Implicit Types (self : SuryaOcrModel) (backend : PageBackend Image)
         (rect : BoundingBox) (cells : list TextCell)
         (w : World Image PredState) (page : Page).

Lemma ocr_rect_skip self backend rect (acc : list TextCell * World Image PredState) :
  Qeq_bool (area rect) 0%Q = true ->
  ocr_rect host self backend rect acc = acc.
Proof.
  intro H. destruct acc as [cells w]. unfold ocr_rect. now rewrite H.
Qed.

(** A region step only appends: to the cells and to the log. *)
Lemma ocr_rect_frame self backend rect cells w :
  let out := ocr_rect host self backend rect ([], fresh (pred_state w)) in
  ocr_rect host self backend rect (cells, w) =
  (cells ++ fst out,
   {| log := log w ++ log (snd out);
      pred_state := pred_state (snd out) |}).
Proof.
  unfold ocr_rect, record, fresh.
  destruct (Qeq_bool (area rect) 0%Q); simpl.
  - rewrite !app_nil_r. now destruct w.
  - destruct (recognition_predictor host _ (pred_state w)) as [preds ps].
    destruct preds as [|pred preds]; simpl;
      rewrite ?app_nil_r, <- ?app_assoc; reflexivity.
Qed.

Lemma ocr_rects_loop_cons self backend rect rects
      (acc : list TextCell * World Image PredState) :
  ocr_rects_loop host self backend (rect :: rects) acc =
  ocr_rects_loop host self backend rects (ocr_rect host self backend rect acc).
Proof. reflexivity. Qed.

Lemma ocr_rects_loop_app self backend rects1 rects2
      (acc : list TextCell * World Image PredState) :
  ocr_rects_loop host self backend (rects1 ++ rects2) acc =
  ocr_rects_loop host self backend rects2
                 (ocr_rects_loop host self backend rects1 acc).
Proof. unfold ocr_rects_loop. apply fold_left_app. Qed.

Lemma page_runs_cons self backend rect rects (ps : PredState) :
  page_runs host self backend (rect :: rects) ps =
  fst (ocr_rect host self backend rect ([], fresh ps))
  :: page_runs host self backend rects
       (pred_state (snd (ocr_rect host self backend rect ([], fresh ps)))).
Proof.
  cbn [page_runs].
  now destruct (ocr_rect host self backend rect ([], fresh ps)).
Qed.

(** The loop's cells are the incoming cells followed by the regions'
    contributions, in order. *)
Lemma ocr_rects_loop_runs self backend rects cells w :
  fst (ocr_rects_loop host self backend rects (cells, w)) =
  cells ++ List.concat (page_runs host self backend rects (pred_state w)).
Proof.
  revert cells w. induction rects as [|rect rects IH]; intros cells w.
  - simpl. now rewrite app_nil_r.
  - rewrite ocr_rects_loop_cons, ocr_rect_frame. cbv zeta.
    rewrite IH, page_runs_cons.
    destruct (ocr_rect host self backend rect ([], fresh (pred_state w)))
      as [cs w'].
    cbn [fst snd pred_state List.concat]. now rewrite app_assoc.
Qed.

Lemma page_runs_length self backend rects (ps : PredState) :
  List.length (page_runs host self backend rects ps) = List.length rects.
Proof.
  revert ps. induction rects as [|rect rects IH]; intro ps.
  - reflexivity.
  - rewrite page_runs_cons. cbn [List.length]. now rewrite IH.
Qed.

Lemma ocr_rect_fresh_contiguous self backend rect (ps : PredState) :
  contiguous_from_zero
    (fst (ocr_rect host self backend rect ([], fresh ps))).
Proof.
  unfold ocr_rect.
  destruct (Qeq_bool (area rect) 0%Q); [reflexivity|].
  cbn [record fresh pred_state log].
  destruct (recognition_predictor host _ ps) as [preds ps'].
  destruct preds as [|pred preds]; [reflexivity|].
  cbn [fst app]. apply region_cells_contiguous.
Qed.

Lemma page_runs_contiguous self backend rects (ps : PredState) :
  Forall contiguous_from_zero (page_runs host self backend rects ps).
Proof.
  revert ps. induction rects as [|rect rects IH]; intro ps.
  - constructor.
  - rewrite page_runs_cons. constructor; [|apply IH].
    apply ocr_rect_fresh_contiguous.
Qed.

Lemma warnings_app (lg1 lg2 : list (Event Image)) :
  warnings (lg1 ++ lg2) = warnings lg1 + warnings lg2.
Proof.
  induction lg1 as [|e lg1 IH]; simpl; [reflexivity|].
  destruct e; simpl; now rewrite IH.
Qed.

Lemma recognize_calls_app (lg1 lg2 : list (Event Image)) :
  recognize_calls (lg1 ++ lg2) = recognize_calls lg1 + recognize_calls lg2.
Proof.
  induction lg1 as [|e lg1 IH]; simpl; [reflexivity|].
  destruct e; simpl; now rewrite IH.
Qed.

(** The predictor is called once for every region of non-zero area and
    for no other. *)
Lemma recognize_calls_loop self backend rects cells w :
  recognize_calls (log (snd (ocr_rects_loop host self backend rects (cells, w)))) =
  recognize_calls (log w) + List.length (processed rects).
Proof.
  revert cells w. induction rects as [|rect rects IH]; intros cells w.
  - simpl. lia.
  - rewrite ocr_rects_loop_cons. unfold ocr_rect at 1. simpl.
    destruct (Qeq_bool (area rect) 0%Q); simpl.
    + apply IH.
    + destruct (recognition_predictor host _ (pred_state w)) as [preds ps].
      destruct preds as [|pred preds]; rewrite IH; simpl;
        rewrite ?recognize_calls_app; simpl; lia.
Qed.

Lemma ocr_pages_app self (pages1 pages2 : list Page) w :
  ocr_pages host self (pages1 ++ pages2) w =
  let '(out1, w1) := ocr_pages host self pages1 w in
  let '(out2, w2) := ocr_pages host self pages2 w1 in
  (out1 ++ out2, w2).
Proof.
  revert w. induction pages1 as [|page pages1 IH]; intro w; simpl.
  - now destruct (ocr_pages host self pages2 w).
  - destruct (ocr_page host self page w) as [page' w'].
    rewrite IH.
    destruct (ocr_pages host self pages1 w') as [out1 w1].
    now destruct (ocr_pages host self pages2 w1).
Qed.

(** *** The region step, case by case *)

Lemma ocr_rect_empty_result self backend rect cells w (ps : PredState) :
  Qeq_bool (area rect) 0%Q = false ->
  answer host self backend rect (pred_state w) = ([], ps) ->
  ocr_rect host self backend rect (cells, w) =
  (cells,
   {| log := log w ++ [GetPageImage (scale self) rect;
                       Recognize [render self backend rect];
                       LogWarning empty_result_warning];
      pred_state := ps |}).
Proof.
  unfold answer, render, ocr_rect, record. intros Ha Hp.
  rewrite Ha. cbn [log pred_state]. rewrite Hp.
  cbn [log pred_state]. now rewrite <- !app_assoc.
Qed.

Lemma ocr_rect_some_result self backend rect cells w
      (preds : list surya.OCRResult) (ps : PredState) :
  Qeq_bool (area rect) 0%Q = false ->
  answer host self backend rect (pred_state w) = (preds, ps) ->
  preds <> [] ->
  ocr_rect host self backend rect (cells, w) =
  (cells ++ map (text_cell self rect) (enumerate (flatten_preds preds)),
   {| log := log w ++ [GetPageImage (scale self) rect;
                       Recognize [render self backend rect]];
      pred_state := ps |}).
Proof.
  unfold answer, render, ocr_rect, record. intros Ha Hp Hne.
  rewrite Ha. cbn [log pred_state]. rewrite Hp.
  destruct preds as [|pred preds]; [contradiction|].
  now rewrite <- !app_assoc.
Qed.

Lemma flatten_preds_no_lines (preds : list surya.OCRResult) :
  Forall (fun pred => surya.text_lines pred = []) preds ->
  flatten_preds preds = [].
Proof.
  unfold flatten_preds. induction 1 as [|pred preds Hp _ IH]; simpl.
  - reflexivity.
  - now rewrite Hp, IH.
Qed.

Lemma ocr_page_pass_through self page w :
  (_backend host page = None \/
   exists backend, _backend host page = Some backend /\
                   is_valid backend = false) ->
  ocr_page host self page w = (page, w).
Proof.
  unfold ocr_page. intros [H|[backend [H Hv]]]; rewrite H.
  - reflexivity.
  - now rewrite Hv.
Qed.

Lemma ocr_page_valid self page backend w :
  _backend host page = Some backend -> is_valid backend = true ->
  fst (ocr_page host self page w) =
  post_process_cells host
    (List.concat (page_runs host self backend (get_ocr_rects host page)
                            (pred_state w)))
    page.
Proof.
  unfold ocr_page. intros H Hv. rewrite H, Hv. cbn [negb].
  pose proof (ocr_rects_loop_runs self backend (get_ocr_rects host page)
                                  [] (record GetOcrRects w)) as Hr.
  destruct (ocr_rects_loop host self backend (get_ocr_rects host page)
                           ([], record GetOcrRects w)) as [all_cells w'].
  cbn [fst] in *. now rewrite Hr.
Qed.

(** What one region step does, in one equation for all its cases. *)
Lemma ocr_rect_cases self backend region cells w :
  ocr_rect host self backend region (cells, w) =
  if Qeq_bool (area region) 0%Q then (cells, w)
  else
    let '(preds, ps) := answer host self backend region (pred_state w) in
    (cells ++ map (text_cell self region) (enumerate (flatten_preds preds)),
     {| log := log w ++ [GetPageImage (scale self) region;
                         Recognize [render self backend region]] ++
                        match preds with
                        | [] => [LogWarning empty_result_warning]
                        | _ :: _ => []
                        end;
        pred_state := ps |}).
Proof.
  destruct (Qeq_bool (area region) 0%Q) eqn:Ha.
  - now apply ocr_rect_skip.
  - destruct (answer host self backend region (pred_state w))
      as [preds ps] eqn:Hp.
    destruct preds as [|pred preds].
    + rewrite (ocr_rect_empty_result self backend region cells w ps
                                     Ha Hp).
      cbn [flatten_preds flat_map enumerate List.length seq combine map].
      now rewrite app_nil_r.
    + rewrite (ocr_rect_some_result self backend region cells w
                                    (pred :: preds) ps Ha Hp);
        [|discriminate].
      cbn [app]. reflexivity.
Qed.

Lemma map_text_enumerate self region (result : list Triple) :
  map text (map (text_cell self region) (enumerate result)) =
  map (fun tr => snd (fst tr)) result /\
  map confidence (map (text_cell self region) (enumerate result)) =
  map snd result.
Proof.
  unfold enumerate. generalize 0.
  induction result as [|[[[[[x0 y0] x1] y1] txt] conf] result IH];
    intro k; simpl.
  - split; reflexivity.
  - destruct (IH (S k)) as [IH1 IH2]. now rewrite IH1, IH2.
Qed.

Lemma flatten_preds_texts (preds : list surya.OCRResult) :
  map (fun tr : Triple => snd (fst tr)) (flatten_preds preds) =
  map surya.text (flat_map surya.text_lines preds) /\
  map (fun tr : Triple => snd tr) (flatten_preds preds) =
  map surya.confidence (flat_map surya.text_lines preds) /\
  List.length (flatten_preds preds) =
  List.length (flat_map surya.text_lines preds).
Proof.
  unfold flatten_preds. induction preds as [|pred preds [IH1 [IH2 IH3]]].
  - repeat split.
  - cbn [flat_map]. rewrite !map_app, !length_app, !map_map, length_map.
    split; [|split].
    + apply f_equal2; [reflexivity | exact IH1].
    + apply f_equal2; [reflexivity | exact IH2].
    + apply f_equal2; [reflexivity | exact IH3].
Qed.

(** The texts and confidences of the cells after the loop are those of
    the cells before it followed by those of the text lines the predictor
    returned, one cell per line. *)
Lemma loop_follows_lines self backend regions cells w :
  let out := fst (ocr_rects_loop host self backend regions (cells, w)) in
  let lines := region_lines host self backend regions (pred_state w) in
  map text out = map text cells ++ map surya.text lines /\
  map confidence out = map confidence cells ++ map surya.confidence lines /\
  List.length out = List.length cells + List.length lines.
Proof.
  cbv zeta. revert cells w.
  induction regions as [|region regions IH]; intros cells w.
  - cbn. rewrite !app_nil_r. repeat split. lia.
  - rewrite ocr_rects_loop_cons, ocr_rect_cases. cbn [region_lines].
    destruct (Qeq_bool (area region) 0%Q); [apply IH|].
    destruct (answer host self backend region (pred_state w)) as [preds ps].
    match goal with
    | |- context [ocr_rects_loop _ _ _ _ (?c, ?w')] =>
        destruct (IH c w') as [IH1 [IH2 IH3]]
    end.
    cbn [pred_state] in IH1, IH2, IH3.
    rewrite IH1, IH2, IH3, !map_app, !length_app.
    destruct (map_text_enumerate self region (flatten_preds preds))
      as [Ht Hc].
    destruct (flatten_preds_texts preds) as [Ft [Fc Fl]].
    rewrite <- flat_map_concat_map.
    rewrite length_map, length_enumerate.
    rewrite <- !app_assoc. repeat split.
    + f_equal. f_equal. etransitivity; [exact Ht | exact Ft].
    + f_equal. f_equal. etransitivity; [exact Hc | exact Fc].
    + rewrite Fl. lia.
Qed.

(** *** The claims about page processing *)

(** C1, as amended: on an enabled adapter and a page with a valid
    backend, the cells handed to the cell sink are the concatenation, in
    region order, of one run of cells per region, and within every run
    the indices are 0, 1, 2, ... in order. The numbering starts again at
    0 with every region; there is no counter that continues across the
    regions of the page. *)
Theorem indices_restart_per_region self page backend w :
  enabled self = true ->
  _backend host page = Some backend ->
  is_valid backend = true ->
  let runs := page_runs host self backend (get_ocr_rects host page)
                        (pred_state w) in
  fst (__call__ host self [page] w) =
    [post_process_cells host (List.concat runs) page] /\
  List.length runs = List.length (get_ocr_rects host page) /\
  Forall contiguous_from_zero runs /\
  map index (List.concat runs) =
    flat_map (fun run => seq 0 (List.length run)) runs.
Proof.
  intros Hen Hb Hv runs. repeat split.
  - unfold __call__. rewrite Hen. cbn [negb ocr_pages].
    pose proof (ocr_page_valid self page backend w Hb Hv) as Hp.
    destruct (ocr_page host self page w) as [page' w'].
    cbn [fst] in *. now rewrite Hp.
  - apply page_runs_length.
  - apply page_runs_contiguous.
  - apply indices_of_runs, page_runs_contiguous.
Qed.

(** C4: a region of zero area (equivalently, one with left = right or
    top = bottom) leaves the accumulated cells, the log and the
    predictor untouched, so no cell is emitted, the predictor is not
    called and nothing is logged for it; the loop over a list of regions
    runs exactly as if the region were not in the list; and over any list
    of regions the predictor is called once per region of non-zero area,
    zero-area regions not counted. *)
Theorem zero_area_region_skipped self backend rect before after cells w :
  (area rect == 0)%Q ->
  (l rect == r rect \/ t rect == b rect)%Q /\
  ocr_rect host self backend rect (cells, w) = (cells, w) /\
  ocr_rects_loop host self backend (before ++ rect :: after) (cells, w) =
    ocr_rects_loop host self backend (before ++ after) (cells, w) /\
  recognize_calls
    (log (snd (ocr_rects_loop host self backend (before ++ rect :: after)
                              (cells, w)))) =
    recognize_calls (log w) + List.length (processed (before ++ after)).
Proof.
  intro Hz. pose proof (proj2 (Qeq_bool_iff _ _) Hz) as Hb.
  split; [now apply area_zero_iff|].
  split; [now apply ocr_rect_skip|].
  assert (Hloop :
    ocr_rects_loop host self backend (before ++ rect :: after) (cells, w) =
    ocr_rects_loop host self backend (before ++ after) (cells, w)).
  { rewrite !ocr_rects_loop_app, ocr_rects_loop_cons.
    now rewrite ocr_rect_skip. }
  split; [exact Hloop|].
  rewrite Hloop. apply recognize_calls_loop.
Qed.

(** C5: a disabled adapter yields exactly the pages of its input, in
    order and unmodified, and calls none of its collaborators. *)
Theorem disabled_pass_through self (page_batch : list Page) w :
  enabled self = false ->
  __call__ host self page_batch w = (page_batch, w).
Proof.
  intro Hen. unfold __call__. now rewrite Hen.
Qed.

(** C6: on an enabled adapter, a page whose backend is absent or reports
    itself invalid is yielded as it is, at its place in the output, and
    nothing is called for it (no region selection, no rendering, no
    recognition, no cell sink, no warning): the pages after it are
    processed from the very world the pages before it left behind. *)
Theorem invalid_source_pass_through self (before after : list Page) page w :
  enabled self = true ->
  (_backend host page = None \/
   exists backend, _backend host page = Some backend /\
                   is_valid backend = false) ->
  ocr_page host self page w = (page, w) /\
  __call__ host self (before ++ page :: after) w =
    let '(out1, w1) := __call__ host self before w in
    let '(out2, w2) := __call__ host self after w1 in
    (out1 ++ page :: out2, w2).
Proof.
  intros Hen Hbad. split; [now apply ocr_page_pass_through|].
  unfold __call__. rewrite Hen. cbn [negb].
  rewrite ocr_pages_app.
  destruct (ocr_pages host self before w) as [out1 w1].
  cbn [ocr_pages]. rewrite (ocr_page_pass_through self page w1 Hbad).
  now destruct (ocr_pages host self after w1) as [out2 w2].
Qed.

(** C7: when the predictor answers a region of non-zero area with an
    empty list, the region adds no cell, its only trace is the rendering,
    the call and exactly one warning, and the loop goes on with the
    remaining regions. The cells at the end are those accumulated before
    the region followed by one cell for every text line the predictor
    returns for the regions after it, with that line's text and
    confidence, in order. The step returns normally; nothing is raised. *)
Theorem empty_result_resilience self backend rect before after cells w
        cells1 w1 (ps : PredState) :
  ocr_rects_loop host self backend before (cells, w) = (cells1, w1) ->
  Qeq_bool (area rect) 0%Q = false ->
  answer host self backend rect (pred_state w1) = ([], ps) ->
  let w2 :=
    {| log := log w1 ++ [GetPageImage (scale self) rect;
                         Recognize [render self backend rect];
                         LogWarning empty_result_warning];
       pred_state := ps |} in
  let final :=
    fst (ocr_rects_loop host self backend (before ++ rect :: after)
                        (cells, w)) in
  let later := region_lines host self backend after ps in
  ocr_rect host self backend rect (cells1, w1) = (cells1, w2) /\
  warnings (log w2) = S (warnings (log w1)) /\
  ocr_rects_loop host self backend (before ++ rect :: after) (cells, w) =
    ocr_rects_loop host self backend after (cells1, w2) /\
  final = cells1 ++ List.concat (page_runs host self backend after ps) /\
  map text final = map text cells1 ++ map surya.text later /\
  map confidence final =
    map confidence cells1 ++ map surya.confidence later /\
  List.length final = List.length cells1 + List.length later.
Proof.
  intros E1 Ha Hp w2 final later.
  pose proof (ocr_rect_empty_result self backend rect cells1 w1 ps Ha Hp)
    as Hstep.
  assert (Hloop :
    ocr_rects_loop host self backend (before ++ rect :: after) (cells, w) =
    ocr_rects_loop host self backend after (cells1, w2)).
  { now rewrite ocr_rects_loop_app, E1, ocr_rects_loop_cons, Hstep. }
  destruct (loop_follows_lines self backend after cells1 w2)
    as [Ht [Hc Hl]].
  split; [exact Hstep|]. split; [|split; [exact Hloop|]].
  - subst w2. cbn [log]. rewrite warnings_app. simpl. lia.
  - subst final. rewrite Hloop. repeat split.
    + apply ocr_rects_loop_runs.
    + exact Ht.
    + exact Hc.
    + exact Hl.
Qed.

(** C10: for a region of non-zero area the warning is logged exactly
    when the list of predictions is itself empty; when the list is not
    empty but none of its predictions has a text line, the region adds
    no cell and logs no warning (its only trace is the rendering and the
    call). *)
Theorem no_lines_no_warning self backend rect cells w
        (preds : list surya.OCRResult) (ps : PredState) :
  Qeq_bool (area rect) 0%Q = false ->
  answer host self backend rect (pred_state w) = (preds, ps) ->
  let '(cells', w') := ocr_rect host self backend rect (cells, w) in
  (warnings (log w') = S (warnings (log w)) <-> preds = []) /\
  (warnings (log w') = warnings (log w) <-> preds <> []) /\
  (preds <> [] ->
   Forall (fun pred => surya.text_lines pred = []) preds ->
   cells' = cells /\
   log w' = log w ++ [GetPageImage (scale self) rect;
                      Recognize [render self backend rect]]).
Proof.
  intros Ha Hp. destruct preds as [|pred preds].
  - rewrite (ocr_rect_empty_result self backend rect cells w ps Ha Hp).
    cbn [log]. rewrite warnings_app. simpl.
    repeat split; try congruence; try lia.
  - assert (Hne : pred :: preds <> []) by discriminate.
    rewrite (ocr_rect_some_result self backend rect cells w _ ps Ha Hp Hne).
    cbn [log]. rewrite warnings_app. cbn [warnings].
    split; [split; [intro; lia | discriminate]|].
    split; [split; [intros _; discriminate | intros _; lia]|].
    intros _ Hnl. rewrite (flatten_preds_no_lines _ Hnl).
    split; [apply app_nil_r | reflexivity].
Qed.

(** C3, as amended: on an adapter built by [__init__] the scale is 3.
    For a triple whose local box is in order (x0 <= x1 and y0 <= y1) the
    cell's box is (x0/3 + left, y0/3 + top, x1/3 + left, y1/3 + top) with
    top-left origin. For any triple the box is made of these four numbers
    with each pair put in order by the host's constructor: left and right
    are the smaller and the larger of x0/3 + left and x1/3 + left, top
    and bottom likewise. A processed region with a non-empty answer has
    its crop rendered at that same scale 3 and appends exactly these
    cells, one per triple, in order. For a region with origin (50, 100)
    and the local box (30, 60, 90, 120) the cell's box is
    (60, 120, 80, 140). *)
Theorem cell_box_formula (en : bool) (env : Env) self :
  __init__ en env = Ok self ->
  (forall rect i x0 y0 x1 y1 txt conf,
     (x0 <= x1)%Q -> (y0 <= y1)%Q ->
     cell_box (text_cell self rect (i, ((x0, y0, x1, y1), txt, conf))) =
     {| l := x0 / 3 + l rect;
        t := y0 / 3 + t rect;
        r := x1 / 3 + l rect;
        b := y1 / 3 + t rect;
        coord_origin := TOPLEFT |}) /\
  (forall rect i bbox txt conf,
     box_equiv (cell_box (text_cell self rect (i, (bbox, txt, conf))))
               (ordered_box (formula_box rect bbox))) /\
  (forall backend rect cells w preds (ps : PredState),
     Qeq_bool (area rect) 0%Q = false ->
     answer host self backend rect (pred_state w) = (preds, ps) ->
     preds <> [] ->
     render self backend rect = get_page_image backend 3 rect /\
     ocr_rect host self backend rect (cells, w) =
     (cells ++ map (page_space_cell rect) (enumerate (flatten_preds preds)),
      {| log := log w ++ [GetPageImage 3 rect;
                          Recognize [get_page_image backend 3 rect]];
         pred_state := ps |})) /\
  (forall rect i txt conf,
     (l rect == 50)%Q -> (t rect == 100)%Q ->
     box_equiv
       (cell_box (text_cell self rect
                            (i, ((30, 60, 90, 120)%Q, txt, conf))))
       {| l := 60; t := 120; r := 80; b := 140;
          coord_origin := TOPLEFT |}).
Proof.
  intro Hinit. pose proof (init_scale en env self Hinit) as Hs.
  assert (Hany : forall rect i bbox txt conf,
     box_equiv (cell_box (text_cell self rect (i, (bbox, txt, conf))))
               (ordered_box (formula_box rect bbox))).
  { intros rect i [[[x0 y0] x1] y1] txt conf.
    rewrite (text_cell_spec self rect _ Hs).
    unfold cell_box, page_space_cell, page_space_box, formula_box.
    cbn -[from_tuple ordered_box Qplus Qdiv].
    apply from_tuple_topleft. }
  split; [|split; [exact Hany|split]].
  - intros rect i x0 y0 x1 y1 txt conf Hx Hy.
    rewrite (text_cell_spec self rect _ Hs).
    unfold cell_box, page_space_cell, page_space_box.
    cbn -[from_tuple Qplus Qdiv].
    apply from_tuple_topleft_in_order;
      unfold Qdiv; change (/ 3)%Q with (1 # 3)%Q; lra.
  - intros backend rect cells w preds ps Ha Hp Hne.
    rewrite (ocr_rect_some_result self backend rect cells w preds ps
                                  Ha Hp Hne).
    unfold render. rewrite Hs. split; [reflexivity|].
    now rewrite (map_ext _ _ (fun e => text_cell_spec self rect e Hs)).
  - intros rect i txt conf Hl Ht.
    rewrite (text_cell_spec self rect _ Hs).
    unfold cell_box, page_space_cell, page_space_box.
    cbn -[from_tuple Qplus Qdiv Qeq box_equiv].
    rewrite from_tuple_topleft_in_order
      by (unfold Qdiv; change (/ 3)%Q with (1 # 3)%Q; lra).
    unfold box_equiv. cbn -[Qplus Qdiv Qeq].
    unfold Qdiv. change (/ 3)%Q with (1 # 3)%Q.
    repeat split; lra.
Qed.


End Properties.

(** C2 (the code departs from the claim): when the cache directory can be
    created and one of the backend's modules cannot be imported,
    constructing an enabled adapter runs the [except ImportError] clause,
    whose [raise ImportOcrError(...)] names a class that is bound neither
    in [__init__], nor at module level, nor among the builtins; the
    construction therefore ends in [NameError], not in an exception of a
    dedicated type carrying the install hint. *)
Theorem missing_backend_raises_name_error (env : Env) (m : string) :
  mkdir_ok env = true ->
  In m surya_modules ->
  importable env m = false ->
  bound "ImportOcrError" = false /\
  __init__ true env = Raise (NameError "ImportOcrError").
Proof.
  intros Hmk Hin Himp. split; [reflexivity|].
  unfold __init__, try_body. rewrite Hmk.
  unfold surya_modules in *. cbn [import_modules].
  destruct (importable env "surya.detection") eqn:E1; [|reflexivity].
  destruct (importable env "surya.foundation") eqn:E2; [|reflexivity].
  destruct (importable env "surya.recognition") eqn:E3; [|reflexivity].
  destruct Hin as [<-|[<-|[<-|[]]]]; congruence.
Qed.

(** C8: the options class declares the kind ["suryaocr"]; the factory
    returns the model class under the key ["ocr_engines"]; the options type
    of that class has the kind ["suryaocr"], so that is the only kind under
    which the factory's class is registered; and it is the identifier the
    example passes as [ocr_model]. *)
Theorem plugin_identity :
  SuryaOcrOptions.kind = "suryaocr" /\
  getitem ocr_engines "ocr_engines" = Some [SuryaOcrModelClass] /\
  class_kind (get_options_type SuryaOcrModelClass) = "suryaocr" /\
  registered_kinds = ["suryaocr"] /\
  Forall (fun kind => kind = example_ocr_model) registered_kinds.
Proof.
  repeat split. repeat constructor.
Qed.

(* ------------------------------------------------------------------ *)
(** ** The properties on the concrete host *)
(* ------------------------------------------------------------------ *)

(** C1 as stated fails: on a page with a valid backend and two regions of
    non-zero area, each answered with one text line, the adapter built by
    [__init__] hands the cell sink two cells that both carry index 0. *)
Lemma accumulated_indices_not_contiguous :
  let page := Sample.page_of [Sample.region_a; Sample.region_b] in
  let all_cells :=
    fst (ocr_rects_loop Sample.host Sample.model (Sample.backend true)
                        (get_ocr_rects Sample.host page)
                        ([], record GetOcrRects Sample.start)) in
  __init__ true Sample.env_installed = Ok Sample.model /\
  _backend Sample.host page = Some (Sample.backend true) /\
  is_valid (Sample.backend true) = true /\
  processed (get_ocr_rects Sample.host page) =
    [Sample.region_a; Sample.region_b] /\
  fst (__call__ Sample.host Sample.model [page] Sample.start) =
    [post_process_cells Sample.host all_cells page] /\
  map index all_cells = [0; 0] /\
  ~ contiguous_from_zero all_cells.
Proof.
  cbv zeta. repeat split.
  unfold contiguous_from_zero. vm_compute. discriminate.
Qed.

Lemma indices_restart_per_region_witness :
  let page := Sample.page_of [Sample.region_a; Sample.region_b] in
  let runs :=
    page_runs Sample.host Sample.model (Sample.backend true)
              (get_ocr_rects Sample.host page) (pred_state Sample.start) in
  (enabled Sample.model = true /\
   _backend Sample.host page = Some (Sample.backend true) /\
   is_valid (Sample.backend true) = true) /\
  fst (__call__ Sample.host Sample.model [page] Sample.start) =
    [post_process_cells Sample.host (List.concat runs) page] /\
  List.length runs = 2 /\
  Forall contiguous_from_zero runs /\
  map index (List.concat runs) =
    flat_map (fun run => seq 0 (List.length run)) runs.
Proof.
  cbv zeta. split; [repeat split|].
  apply (indices_restart_per_region
           Sample.host Sample.model
           (Sample.page_of [Sample.region_a; Sample.region_b])
           (Sample.backend true) Sample.start);
    reflexivity.
Defined.

Lemma missing_backend_raises_name_error_witness :
  (mkdir_ok Sample.env_missing = true /\
   In "surya.detection" surya_modules /\
   importable Sample.env_missing "surya.detection" = false) /\
  bound "ImportOcrError" = false /\
  __init__ true Sample.env_missing = Raise (NameError "ImportOcrError").
Proof.
  split; [repeat split; now left|].
  apply (missing_backend_raises_name_error
           Sample.env_missing "surya.detection");
    [reflexivity | now left | reflexivity].
Defined.

(** C3 as stated fails: for the region with origin (50, 100) and the
    inverted local box (90, 120, 30, 60) the formula of the claim gives
    (80, 140, 60, 120), while the cell built by the adapter of [__init__]
    has the box (60, 120, 80, 140). *)
Lemma inverted_local_box_is_reordered :
  let cell :=
    text_cell Sample.model Sample.region_a
              (0, ((90, 120, 30, 60)%Q, "Hello from Surya", 0.95%Q)) in
  __init__ true Sample.env_installed = Ok Sample.model /\
  (l Sample.region_a == 50 /\ t Sample.region_a == 100)%Q /\
  box_equiv (formula_box Sample.region_a (90, 120, 30, 60)%Q)
            (Sample.box 80 140 60 120) /\
  box_equiv (cell_box cell) (Sample.box 60 120 80 140) /\
  ~ box_equiv (cell_box cell)
              (formula_box Sample.region_a (90, 120, 30, 60)%Q).
Proof.
  cbv zeta. repeat split.
  intros [[H _] _]. vm_compute in H. discriminate.
Qed.

Lemma cell_box_formula_witness :
  __init__ true Sample.env_installed = Ok Sample.model /\
  cell_box (text_cell Sample.model Sample.region_b
                      (0, ((10, 20, 100, 40)%Q, "Hello from Surya",
                           0.95%Q))) =
    {| l := 10 / 3 + 20; t := 20 / 3 + 210;
       r := 100 / 3 + 20; b := 40 / 3 + 210;
       coord_origin := TOPLEFT |} /\
  box_equiv
    (cell_box (text_cell Sample.model Sample.region_a
                         (0, ((30, 60, 90, 120)%Q, "Hello from Surya",
                              0.95%Q))))
    (Sample.box 60 120 80 140).
Proof.
  pose proof (cell_box_formula Sample.host true Sample.env_installed
                               Sample.model eq_refl) as [Hord [_ [_ Hex]]].
  split; [reflexivity|]. split.
  - apply (Hord Sample.region_b 0 10%Q 20%Q 100%Q 40%Q
                "Hello from Surya" 0.95%Q);
      discriminate.
  - apply (Hex Sample.region_a 0 "Hello from Surya" 0.95%Q); reflexivity.
Defined.

Lemma zero_area_region_skipped_witness :
  (area Sample.region_flat == 0)%Q /\
  ocr_rects_loop Sample.host Sample.model (Sample.backend true)
                 ([Sample.region_a] ++ Sample.region_flat :: [Sample.region_b])
                 ([], Sample.start) =
  ocr_rects_loop Sample.host Sample.model (Sample.backend true)
                 ([Sample.region_a] ++ [Sample.region_b])
                 ([], Sample.start).
Proof.
  split; [reflexivity|].
  apply (zero_area_region_skipped
           Sample.host Sample.model (Sample.backend true) Sample.region_flat
           [Sample.region_a] [Sample.region_b] [] Sample.start).
  reflexivity.
Defined.

Lemma disabled_pass_through_witness :
  enabled Sample.disabled_model = false /\
  __call__ Sample.host Sample.disabled_model
           [Sample.page_of [Sample.region_a]; Sample.no_backend]
           Sample.start =
  ([Sample.page_of [Sample.region_a]; Sample.no_backend], Sample.start).
Proof.
  split; [reflexivity|].
  apply (disabled_pass_through Sample.host). reflexivity.
Defined.

Lemma invalid_source_pass_through_witness :
  (enabled Sample.model = true /\
   _backend Sample.host Sample.invalid_backend = Some (Sample.backend false) /\
   is_valid (Sample.backend false) = false) /\
  ocr_page Sample.host Sample.model Sample.invalid_backend Sample.start =
    (Sample.invalid_backend, Sample.start).
Proof.
  split; [repeat split|].
  apply (invalid_source_pass_through
           Sample.host Sample.model
           [Sample.page_of [Sample.region_a]]
           [Sample.page_of [Sample.region_b]]
           Sample.invalid_backend Sample.start).
  - reflexivity.
  - right. exists (Sample.backend false). split; reflexivity.
Defined.

Lemma empty_result_resilience_witness :
  let after_a :=
    ocr_rects_loop Sample.host Sample.model (Sample.backend true)
                   [Sample.region_a] ([], Sample.start) in
  let final :=
    fst (ocr_rects_loop Sample.host Sample.model (Sample.backend true)
           ([Sample.region_a] ++ Sample.region_left :: [Sample.region_b])
           ([], Sample.start)) in
  (Qeq_bool (area Sample.region_left) 0%Q = false /\
   answer Sample.host Sample.model (Sample.backend true) Sample.region_left
          (pred_state (snd after_a)) = ([], 2)) /\
  map text final = ["Hello from Surya"; "Hello from Surya"] /\
  List.length final = 2.
Proof.
  cbv zeta. split; [split; reflexivity|].
  pose proof (empty_result_resilience
                Sample.host Sample.model (Sample.backend true)
                Sample.region_left
                [Sample.region_a] [Sample.region_b] [] Sample.start
                _ _ 2 eq_refl eq_refl eq_refl) as H.
  cbv zeta in H. destruct H as [_ [_ [_ [_ [Ht [_ Hl]]]]]].
  split; [exact Ht | exact Hl].
Defined.



Lemma no_lines_no_warning_witness :
  (Qeq_bool (area Sample.region_top) 0%Q = false /\
   answer Sample.host Sample.model (Sample.backend true) Sample.region_top
          (pred_state Sample.start) =
     ([ {| surya.text_lines := [] |} ], 1)) /\
  let '(cells', w') :=
    ocr_rect Sample.host Sample.model (Sample.backend true) Sample.region_top
             ([], Sample.start) in
  cells' = [] /\ warnings (log w') = 0.
Proof.
  split; [split; reflexivity|].
  pose proof (no_lines_no_warning
                Sample.host Sample.model (Sample.backend true)
                Sample.region_top [] Sample.start
                [ {| surya.text_lines := [] |} ] 1 eq_refl eq_refl) as H.
  destruct (ocr_rect Sample.host Sample.model (Sample.backend true)
                     Sample.region_top ([], Sample.start)) as [cells' w'].
  destruct H as [_ [Hw Hc]]. split.
  - apply Hc; [discriminate | repeat constructor].
  - apply Hw. discriminate.
Defined.

(* ------------------------------------------------------------------ *)
(** ** Further properties: construction and the process *)
(* ------------------------------------------------------------------ *)

Lemma getitem_setitem_same {A : Type} (d : list (string * A))
      (key : string) (value : A) :
  getitem (setitem d key value) key = Some value.
Proof.
  induction d as [|[k v] d IH]; simpl.
  - now rewrite String.eqb_refl.
  - destruct (String.eqb k key) eqn:E; simpl.
    + now rewrite String.eqb_refl.
    + now rewrite E.
Qed.

Lemma getitem_setitem_other {A : Type} (d : list (string * A))
      (key key' : string) (value : A) :
  key' <> key ->
  getitem (setitem d key value) key' = getitem d key'.
Proof.
  intro Hne. induction d as [|[k v] d IH]; simpl.
  - destruct (String.eqb key key') eqn:E; [|reflexivity].
    apply String.eqb_eq in E. congruence.
  - destruct (String.eqb k key) eqn:E; simpl.
    + apply String.eqb_eq in E. subst k.
      destruct (String.eqb key key') eqn:E'; [|reflexivity].
      apply String.eqb_eq in E'. congruence.
    + now rewrite IH.
Qed.

Lemma setitem_again {A : Type} (d : list (string * A))
      (key : string) (value value' : A) :
  setitem (setitem d key value) key value' = setitem d key value'.
Proof.
  induction d as [|[k v] d IH]; simpl.
  - now rewrite String.eqb_refl.
  - destruct (String.eqb k key) eqn:E; simpl.
    + now rewrite String.eqb_refl.
    + now rewrite E, IH.
Qed.

(** The outcome of [init_run] is that of [__init__]. *)
Lemma init_run_outcome (cache_dir : Path) (path_str : Path -> string)
      (en : bool) (env : Env) (p : Process) :
  fst (init_run cache_dir path_str en env p) = __init__ en env.
Proof.
  unfold init_run, __init__, try_body.
  destruct en; [|reflexivity].
  destruct (mkdir_ok env); [|reflexivity].
  destruct (import_modules env surya_modules) as [u|e].
  - now destruct (call_all env predictor_classes).
  - now destruct e.
Qed.






Section ProcessProperties.

Variable cache_dir : Path.
Variable path_str : Path -> string.

Lemma init_run_process (en : bool) (env : Env) (p : Process) :
  snd (init_run cache_dir path_str en env p) =
  if en && mkdir_ok env
  then prepare_cache path_str (default_local_dir cache_dir) p
  else p.
Proof.
  unfold init_run. destruct en; [|reflexivity].
  destruct (mkdir_ok env); [|reflexivity]. cbn [andb].
  destruct (import_modules env surya_modules) as [u|e].
  - now destruct (call_all env predictor_classes).
  - now destruct e.
Qed.

(** X2. By the time an enabled construction ends, in success or in
    failure, it has created the cache directory and pointed
    [MODEL_CACHE_DIR] at it, provided the directory could be created: the
    imports and the predictor constructors come after both. A disabled
    construction, and one whose [mkdir] fails, set and create nothing. *)
Theorem construction_prepares_cache (en : bool) (env : Env) (p : Process) :
  let p' := snd (init_run cache_dir path_str en env p) in
  (en = true -> mkdir_ok env = true ->
   getitem (environ p') "MODEL_CACHE_DIR" =
     Some (path_str (default_local_dir cache_dir)) /\
   made_dirs p' = made_dirs p ++ [default_local_dir cache_dir]) /\
  (en = false \/ mkdir_ok env = false -> p' = p).
Proof.
  cbv zeta. rewrite init_run_process. split.
  - intros -> ->. cbn [andb prepare_cache environ made_dirs].
    split; [apply getitem_setitem_same | reflexivity].
  - intros [->| ->]; [reflexivity|]. now rewrite andb_false_r.
Qed.

(** X3. [download_models] returns normally exactly when the directory
    can be created, [torch] can be imported, [torch.cuda.is_available()]
    returns and, if it returns true, [surya.models] can be imported and
    [load_predictors()] returns. What it returns is the directory it was
    given, or the default cache directory when given none; that directory
    has been created and [MODEL_CACHE_DIR] points at it. *)
Theorem download_models_outcome (local_dir : option Path) (env : Env)
        (cuda : bool) (p : Process) :
  let dir := match local_dir with
             | None => default_local_dir cache_dir
             | Some d => d
             end in
  let out := download_models cache_dir path_str local_dir env cuda p in
  ((exists dir', fst out = Ok dir') <->
   mkdir_ok env = true /\ importable env "torch" = true /\
   raises env "torch.cuda.is_available" = None /\
   (cuda = true ->
    importable env "surya.models" = true /\
    raises env "load_predictors" = None)) /\
  (forall dir', fst out = Ok dir' ->
     dir' = dir /\
     getitem (environ (snd out)) "MODEL_CACHE_DIR" = Some (path_str dir) /\
     made_dirs (snd out) = made_dirs p ++ [dir]).
Proof.
  unfold download_models.
  destruct (mkdir_ok env), (importable env "torch"),
    (raises env "torch.cuda.is_available") as [e1|], cuda,
    (importable env "surya.models"),
    (raises env "load_predictors") as [e2|];
    cbn [fst snd prepare_cache environ made_dirs];
    (split;
     [split;
      [intros [dir' H]; try discriminate;
       repeat split; try reflexivity; intros; try discriminate;
       split; reflexivity
      |intros [H1 [H2 [H3 H4]]]; try discriminate;
       try (destruct (H4 eq_refl); discriminate);
       eexists; reflexivity]
     |intros dir' H; try discriminate; injection H as <-;
      repeat split; apply getitem_setitem_same]).
Qed.

(** X4. [download_models] calls [load_predictors] (once) exactly when the
    directory can be created, [torch] and [surya.models] can be imported
    and [torch.cuda.is_available()] returns true. Without CUDA it never
    looks for [surya.models]: with a creatable directory and [torch] it
    returns the directory and loads nothing, whether the backend is
    installed or not. *)
Theorem download_models_loads_only_with_cuda (local_dir : option Path)
        (env : Env) (cuda : bool) (p : Process) :
  let out := download_models cache_dir path_str local_dir env cuda p in
  let called :=
    mkdir_ok env = true /\ importable env "torch" = true /\
    raises env "torch.cuda.is_available" = None /\ cuda = true /\
    importable env "surya.models" = true in
  (loaded_predictors (snd out) = S (loaded_predictors p) <-> called) /\
  (loaded_predictors (snd out) = loaded_predictors p <-> ~ called) /\
  (cuda = false -> mkdir_ok env = true -> importable env "torch" = true ->
   raises env "torch.cuda.is_available" = None ->
   exists dir, fst out = Ok dir /\
               loaded_predictors (snd out) = loaded_predictors p).
Proof.
  unfold download_models.
  destruct (mkdir_ok env), (importable env "torch"),
    (raises env "torch.cuda.is_available") as [e1|], cuda,
    (importable env "surya.models"),
    (raises env "load_predictors") as [e2|];
    cbn [fst snd prepare_cache loaded_predictors];
    (split; [|split]);
    try (intros; try discriminate; eexists; split; reflexivity);
    split;
    try (intros H; exfalso; revert H; apply Nat.neq_succ_diag_l);
    try (intros H; exfalso; revert H; apply Nat.neq_succ_diag_r);
    try (intros _; reflexivity);
    try (intros [H1 [H2 [H3 [H4 H5]]]]; discriminate);
    try (intros _ [H1 [H2 [H3 [H4 H5]]]]; discriminate);
    try (intros _; repeat split; reflexivity);
    try (intros Hn; exfalso; apply Hn; repeat split; reflexivity).
Qed.


(** X6. Construction and [download_models()] use the same directory: after
    an enabled construction that could create the cache directory, a
    [download_models] without argument asks for that same directory again
    and leaves every environment variable as construction set it. *)
Theorem download_after_construction (env env' : Env) (cuda : bool)
        (p : Process) :
  mkdir_ok env = true ->
  mkdir_ok env' = true ->
  let p1 := snd (init_run cache_dir path_str true env p) in
  let p2 := snd (download_models cache_dir path_str None env' cuda p1) in
  environ p2 = environ p1 /\
  made_dirs p2 =
    made_dirs p ++ [default_local_dir cache_dir; default_local_dir cache_dir].
Proof.
  intros Hm Hm'. cbv zeta. rewrite init_run_process, Hm. cbn [andb].
  unfold download_models. rewrite Hm'.
  destruct (importable env' "torch"),
    (raises env' "torch.cuda.is_available") as [e1|], cuda,
    (importable env' "surya.models"),
    (raises env' "load_predictors") as [e2|];
    cbn [snd prepare_cache environ made_dirs];
    rewrite setitem_again, <- app_assoc; split; reflexivity.
Qed.

End ProcessProperties.

(* ------------------------------------------------------------------ *)
(** ** Further properties: page processing *)
(* ------------------------------------------------------------------ *)

Section MoreProperties.

Context {Image Page PredState : Type}.
Variable host : Host Image Page PredState.

Implicit Types (self : SuryaOcrModel) (backend : PageBackend Image)
         (cells : list TextCell) (w : World Image PredState) (page : Page).

Lemma recognize_batches_app (lg1 lg2 : list (Event Image)) :
  recognize_batches (lg1 ++ lg2) =
  recognize_batches lg1 ++ recognize_batches lg2.
Proof.
  induction lg1 as [|e lg1 IH]; simpl; [reflexivity|].
  destruct e; simpl; now rewrite IH.
Qed.

Lemma renderings_app (lg1 lg2 : list (Event Image)) :
  renderings (lg1 ++ lg2) = renderings lg1 ++ renderings lg2.
Proof.
  induction lg1 as [|e lg1 IH]; simpl; [reflexivity|].
  destruct e; simpl; now rewrite IH.
Qed.

(** A property of cells that every built cell has holds of all cells
    after the loop if it held of the cells before. *)
Lemma loop_cells_invariant (P : TextCell -> Prop) self backend regions
      cells w :
  (forall region entry, P (text_cell self region entry)) ->
  Forall P cells ->
  Forall P (fst (ocr_rects_loop host self backend regions (cells, w))).
Proof.
  intro Hbuilt. revert cells w.
  induction regions as [|region regions IH]; intros cells w Hcells.
  - exact Hcells.
  - rewrite ocr_rects_loop_cons, ocr_rect_cases.
    destruct (Qeq_bool (area region) 0%Q); [now apply IH|].
    destruct (answer host self backend region (pred_state w)) as [preds ps].
    apply IH. apply Forall_app. split; [exact Hcells|].
    apply Forall_forall. intros cell Hin.
    apply in_map_iff in Hin. destruct Hin as [entry [<- _]].
    apply Hbuilt.
Qed.

Lemma from_tuple_in_order (coord : Q * Q * Q * Q) :
  let bx := from_tuple coord TOPLEFT in
  (l bx <= r bx /\ t bx <= b bx)%Q.
Proof.
  destruct coord as [[[c0 c1] c2] c3]. unfold from_tuple.
  destruct (Qltb c2 c0) eqn:E1; destruct (Qltb c3 c1) eqn:E2;
    try apply Qltb_true_iff in E1; try apply Qltb_false_iff in E1;
    try apply Qltb_true_iff in E2; try apply Qltb_false_iff in E2;
    cbn [l t r b]; split; lra.
Qed.

(** X8. Every cell the page loop accumulates has its box in order, left
    <= right and top <= bottom, whatever the scale and whatever local box
    the predictor returned for it, an inverted one included. *)
Theorem cells_well_ordered self backend regions w :
  Forall (fun cell =>
            (l (cell_box cell) <= r (cell_box cell) /\
             t (cell_box cell) <= b (cell_box cell))%Q)
         (fst (ocr_rects_loop host self backend regions ([], w))).
Proof.
  apply loop_cells_invariant; [|constructor].
  intros region [i [[[[[x0 y0] x1] y1] txt] conf]].
  unfold cell_box, text_cell. cbn -[from_tuple Qplus Qdiv Qle].
  apply from_tuple_in_order.
Qed.

(** X9. Every cell the page loop accumulates is marked as coming from
    OCR and carries the recognised text both as its text and as its
    original text. *)
Theorem cells_marked_and_verbatim self backend regions w :
  Forall (fun cell => from_ocr cell = true /\ orig cell = text cell)
         (fst (ocr_rects_loop host self backend regions ([], w))).
Proof.
  apply loop_cells_invariant; [|constructor].
  intros region [i [[[[[x0 y0] x1] y1] txt] conf]]. split; reflexivity.
Qed.

(** X10. A processed region appends one cell per text line, over all
    predictions of the answer and in their order: the texts and the
    confidences of the new cells are those of the text lines, unchanged,
    and the cells accumulated before stay in front as they were. *)
Theorem region_cells_follow_text_lines self backend region cells w
        (preds : list surya.OCRResult) (ps : PredState) :
  Qeq_bool (area region) 0%Q = false ->
  answer host self backend region (pred_state w) = (preds, ps) ->
  exists new,
    fst (ocr_rect host self backend region (cells, w)) = cells ++ new /\
    map text new = map surya.text (flat_map surya.text_lines preds) /\
    map confidence new =
      map surya.confidence (flat_map surya.text_lines preds) /\
    List.length new = List.length (flat_map surya.text_lines preds).
Proof.
  intros Ha Hp. rewrite ocr_rect_cases, Ha, Hp. cbn [fst].
  eexists. split; [reflexivity|].
  destruct (map_text_enumerate self region (flatten_preds preds))
    as [Ht Hc].
  destruct (flatten_preds_texts preds) as [Ft [Fc Fl]].
  split; [|split].
  - etransitivity; [exact Ht | exact Ft].
  - etransitivity; [exact Hc | exact Fc].
  - rewrite length_map, length_enumerate. exact Fl.
Qed.

(** X11. The predictor sees exactly the regions of non-zero area, in the
    order of the region list: the loop renders each of them once at
    [self.scale] and calls the predictor once on a batch holding that one
    rendering; nothing else is rendered or recognised. *)
Theorem predictor_sees_processed_crops self backend regions cells w :
  let lg := log (snd (ocr_rects_loop host self backend regions (cells, w))) in
  recognize_batches lg =
    recognize_batches (log w) ++
    map (fun region => [render self backend region]) (processed regions) /\
  renderings lg =
    renderings (log w) ++
    map (fun region => (scale self, region)) (processed regions).
Proof.
  cbv zeta. revert cells w.
  induction regions as [|region regions IH]; intros cells w.
  - cbn. now rewrite !app_nil_r.
  - rewrite ocr_rects_loop_cons, ocr_rect_cases.
    unfold processed. cbn [filter]. fold (processed regions).
    destruct (Qeq_bool (area region) 0%Q); cbn [negb]; [apply IH|].
    destruct (answer host self backend region (pred_state w)) as [preds ps].
    destruct (IH (cells ++ map (text_cell self region)
                               (enumerate (flatten_preds preds)))
                 {| log := log w ++ [GetPageImage (scale self) region;
                                     Recognize [render self backend region]] ++
                                    match preds with
                                    | [] => [LogWarning empty_result_warning]
                                    | _ :: _ => []
                                    end;
                    pred_state := ps |}) as [IH1 IH2].
    rewrite IH1, IH2. cbn [log].
    rewrite !recognize_batches_app, !renderings_app.
    destruct preds; cbn; rewrite <- !app_assoc; split; reflexivity.
Qed.

Lemma contributing_cons (run : list TextCell) (runs : list (list TextCell)) :
  List.length (contributing (run :: runs)) =
  (if Nat.eqb (List.length run) 0 then 0 else 1) +
  List.length (contributing runs).
Proof.
  unfold contributing. cbn [filter].
  now destruct (Nat.eqb (List.length run) 0).
Qed.

(** X12. Warnings and cells exclude each other: over a region list, the
    warnings the loop logs plus the regions that contribute at least one
    cell are at most the regions of non-zero area. In particular there is
    at most one warning per predictor call. *)
Theorem warnings_bounded self backend regions cells w :
  warnings (log (snd (ocr_rects_loop host self backend regions (cells, w)))) +
  List.length (contributing (page_runs host self backend regions
                                       (pred_state w))) <=
  warnings (log w) + List.length (processed regions).
Proof.
  revert cells w.
  induction regions as [|region regions IH]; intros cells w.
  - cbn. lia.
  - rewrite ocr_rects_loop_cons, page_runs_cons, contributing_cons.
    rewrite !ocr_rect_cases.
    unfold processed. cbn [filter]. fold (processed regions).
    destruct (Qeq_bool (area region) 0%Q); cbn [negb fst snd].
    + cbn [List.length Nat.eqb fresh pred_state]. apply (IH cells w).
    + cbn [fresh pred_state].
      destruct (answer host self backend region (pred_state w))
        as [preds ps].
      cbn [fst snd pred_state List.length].
      match goal with
      | |- warnings (log (snd (ocr_rects_loop _ _ _ _ (?c, ?w')))) + _ <= _ =>
          specialize (IH c w')
      end.
      cbn [pred_state log] in IH.
      rewrite warnings_app in IH.
      destruct preds as [|pred preds].
      * cbn in IH |- *. lia.
      * cbn [app warnings] in IH |- *.
        destruct (Nat.eqb _ 0); lia.
Qed.

Lemma loop_nothing_processed self backend regions
      (acc : list TextCell * World Image PredState) :
  processed regions = [] ->
  ocr_rects_loop host self backend regions acc = acc.
Proof.
  induction regions as [|region regions IH]; intro Hp; [reflexivity|].
  unfold processed in Hp. cbn [filter] in Hp.
  destruct (Qeq_bool (area region) 0%Q) eqn:Ha; cbn [negb] in Hp;
    [|discriminate].
  rewrite ocr_rects_loop_cons, ocr_rect_skip by exact Ha.
  now apply IH.
Qed.

(** X13. A page with a valid backend but no region of non-zero area (no
    region at all, or only degenerate ones) still goes through the cell
    sink, with an empty list of cells; nothing is rendered, the predictor
    is not called and keeps its state, and no warning is logged. *)
Theorem valid_page_without_regions self page backend w :
  _backend host page = Some backend ->
  is_valid backend = true ->
  processed (get_ocr_rects host page) = [] ->
  ocr_page host self page w =
  (post_process_cells host [] page,
   {| log := log w ++ GetOcrRects :: page_epilogue (visualize_ocr host) [];
      pred_state := pred_state w |}).
Proof.
  intros Hb Hv Hp. unfold ocr_page. rewrite Hb, Hv. cbn [negb].
  rewrite (loop_nothing_processed self backend _ _ Hp).
  unfold page_epilogue, record.
  destruct (visualize_ocr host); cbn [log pred_state];
    rewrite <- ?app_assoc; reflexivity.
Qed.

Lemma ocr_rects_loop_flag (flag : bool) self backend regions
      (acc : list TextCell * World Image PredState) :
  ocr_rects_loop (with_visualize_ocr flag host) self backend regions acc =
  ocr_rects_loop host self backend regions acc.
Proof. reflexivity. Qed.

(** X14. The debug flag only adds an observation: with
    [visualize_ocr] set, a page is yielded exactly as without it, the
    predictor ends in the same state, and the log is the same followed by
    one drawing event. *)
Theorem visualization_is_observation_only self page w :
  let off := ocr_page (with_visualize_ocr false host) self page w in
  let on := ocr_page (with_visualize_ocr true host) self page w in
  fst on = fst off /\
  pred_state (snd on) = pred_state (snd off) /\
  (log (snd on) = log (snd off) \/
   log (snd on) = log (snd off) ++ [DrawOcrRectsAndCells]) /\
  (forall backend,
     _backend host page = Some backend -> is_valid backend = true ->
     log (snd on) = log (snd off) ++ [DrawOcrRectsAndCells]).
Proof.
  cbv zeta. unfold ocr_page.
  cbn [with_visualize_ocr _backend get_ocr_rects post_process_cells
       visualize_ocr].
  destruct (_backend host page) as [backend|].
  - destruct (is_valid backend) eqn:Hv; cbn [negb].
    + rewrite !ocr_rects_loop_flag.
      destruct (ocr_rects_loop host self backend (get_ocr_rects host page)
                               ([], record GetOcrRects w))
        as [all_cells w'].
      cbn [fst snd record log pred_state].
      split; [reflexivity|]. split; [reflexivity|].
      split; [now right|]. intros; reflexivity.
    + cbn [fst snd].
      split; [reflexivity|]. split; [reflexivity|].
      split; [now left|].
      intros backend' H Hv'. injection H as <-. congruence.
  - cbn [fst snd].
    split; [reflexivity|]. split; [reflexivity|].
    split; [now left|]. discriminate.
Qed.

Lemma ocr_page_yielded_from self page w :
  yielded_from host page (fst (ocr_page host self page w)).
Proof.
  unfold ocr_page, yielded_from.
  destruct (_backend host page) as [backend|]; [|now left].
  destruct (is_valid backend); cbn [negb]; [|now left].
  destruct (ocr_rects_loop host self backend (get_ocr_rects host page)
                           ([], record GetOcrRects w)) as [all_cells w'].
  right. now exists all_cells.
Qed.

(** X15. The adapter, enabled or not, yields one page per page of the
    batch, in the order of the batch: the i-th yielded page is the i-th
    input page itself or what the cell sink made of that page. No page is
    dropped, repeated or moved. *)
Theorem call_yields_one_page_per_input self (page_batch : list Page) w :
  Forall2 (yielded_from host) page_batch
          (fst (__call__ host self page_batch w)) /\
  List.length (fst (__call__ host self page_batch w)) =
    List.length page_batch.
Proof.
  assert (H : Forall2 (yielded_from host) page_batch
                      (fst (__call__ host self page_batch w))).
  { unfold __call__. destruct (enabled self); cbn [negb].
    - revert w. induction page_batch as [|page rest IH]; intro w.
      + constructor.
      + cbn [ocr_pages].
        pose proof (ocr_page_yielded_from self page w) as Hy.
        destruct (ocr_page host self page w) as [page' w'].
        specialize (IH w').
        destruct (ocr_pages host self rest w') as [out w''].
        constructor; assumption.
    - cbn [fst]. induction page_batch; constructor; [now left|assumption]. }
  split; [exact H|]. symmetry. exact (Forall2_length H).
Qed.

(** X16. Processing a batch is processing its parts one after the other:
    for a batch split in two, the adapter yields the pages of the first
    part followed by those of the second, the second part starting from
    the world (log and predictor state) the first part left. *)
Theorem call_splits_over_batches self (batch1 batch2 : list Page) w :
  __call__ host self (batch1 ++ batch2) w =
  let '(out1, w1) := __call__ host self batch1 w in
  let '(out2, w2) := __call__ host self batch2 w1 in
  (out1 ++ out2, w2).
Proof.
  unfold __call__. destruct (enabled self); cbn [negb].
  - apply ocr_pages_app.
  - reflexivity.
Qed.

(** X17. With the predictor of the tests, which answers every image with
    one prediction of one line, the loop builds exactly one cell per
    region of non-zero area, in region order, each with index 0 and the
    mock's text, and it never logs a warning. *)
Theorem mock_predictor_cells self backend regions w :
  (forall images ps,
     recognition_predictor host images ps = (Mock.MockPredictor images, ps)) ->
  let out := ocr_rects_loop host self backend regions ([], w) in
  fst out =
    map (fun region => text_cell self region (0, Mock.triple))
        (processed regions) /\
  Forall (fun cell => index cell = 0 /\ text cell = "Hello from Surya")
         (fst out) /\
  warnings (log (snd out)) = warnings (log w) /\
  pred_state (snd out) = pred_state w.
Proof.
  intro Hmock. cbv zeta.
  assert (Hgen : forall cells w',
    let out := ocr_rects_loop host self backend regions (cells, w') in
    fst out = cells ++ map (fun region => text_cell self region
                                                    (0, Mock.triple))
                           (processed regions) /\
    warnings (log (snd out)) = warnings (log w') /\
    pred_state (snd out) = pred_state w').
  { induction regions as [|region regions IH]; intros cells w'; cbv zeta.
    - cbn. now rewrite app_nil_r.
    - rewrite ocr_rects_loop_cons, ocr_rect_cases.
      unfold processed. cbn [filter]. fold (processed regions).
      destruct (Qeq_bool (area region) 0%Q); cbn [negb]; [apply IH|].
      unfold answer. rewrite Hmock.
      cbn [Mock.MockPredictor map].
      match goal with
      | |- fst (ocr_rects_loop _ _ _ _ (?c, ?w1)) = _ /\ _ =>
          destruct (IH c w1) as [IH1 [IH2 IH3]]
      end.
      rewrite IH1, IH2, IH3. cbn [log pred_state].
      rewrite warnings_app. cbn.
      rewrite <- app_assoc. repeat split; lia. }
  destruct (Hgen [] w) as [H1 [H2 H3]]. cbn [app] in H1.
  repeat split; try assumption.
  rewrite H1. apply Forall_forall. intros cell Hin.
  apply in_map_iff in Hin. destruct Hin as [region [<- _]].
  split; reflexivity.
Qed.

End MoreProperties.

(* ------------------------------------------------------------------ *)
(** ** The further properties on the concrete host *)
(* ------------------------------------------------------------------ *)

Lemma download_after_construction_witness :
  let p1 :=
    snd (init_run SampleProcess.cache_dir SampleProcess.path_str true
                  Sample.env_missing SampleProcess.initial) in
  let p2 :=
    snd (download_models SampleProcess.cache_dir SampleProcess.path_str None
                         SampleProcess.env_torch_only false p1) in
  (mkdir_ok Sample.env_missing = true /\
   mkdir_ok SampleProcess.env_torch_only = true) /\
  environ p2 = environ p1 /\
  getitem (environ p2) "MODEL_CACHE_DIR" =
    Some "home/user/.cache/docling/models/SuryaOcr".
Proof.
  cbv zeta. split; [split; reflexivity|].
  split; [|reflexivity].
  apply (download_after_construction
           SampleProcess.cache_dir SampleProcess.path_str
           Sample.env_missing SampleProcess.env_torch_only false
           SampleProcess.initial eq_refl eq_refl).
Defined.

Lemma region_cells_follow_text_lines_witness :
  (Qeq_bool (area Sample.region_a) 0%Q = false /\
   answer Sample.host Sample.model (Sample.backend true) Sample.region_a
          (pred_state Sample.start) =
     ([ {| surya.text_lines := [Sample.hello] |} ], 1)) /\
  exists new,
    fst (ocr_rect Sample.host Sample.model (Sample.backend true)
                  Sample.region_a ([], Sample.start)) = [] ++ new /\
    map text new = ["Hello from Surya"] /\
    map confidence new = [0.95%Q] /\
    List.length new = 1.
Proof.
  split; [split; reflexivity|].
  apply (region_cells_follow_text_lines
           Sample.host Sample.model (Sample.backend true) Sample.region_a
           [] Sample.start [ {| surya.text_lines := [Sample.hello] |} ] 1
           eq_refl eq_refl).
Defined.

Lemma valid_page_without_regions_witness :
  let page := Sample.page_of [Sample.region_flat] in
  (_backend Sample.host page = Some (Sample.backend true) /\
   is_valid (Sample.backend true) = true /\
   processed (get_ocr_rects Sample.host page) = []) /\
  ocr_page Sample.host Sample.model page Sample.start =
  (post_process_cells Sample.host [] page,
   {| log := [GetOcrRects; PostProcessCells []]; pred_state := 0 |}).
Proof.
  cbv zeta. split; [repeat split|].
  apply (valid_page_without_regions
           Sample.host Sample.model (Sample.page_of [Sample.region_flat])
           (Sample.backend true) Sample.start eq_refl eq_refl eq_refl).
Defined.

Lemma mock_predictor_cells_witness :
  let regions := [Sample.region_a; Sample.region_flat; Sample.region_left] in
  let out := ocr_rects_loop Mock.host Sample.model (Sample.backend true)
                            regions ([], Sample.start) in
  (forall images ps,
     recognition_predictor Mock.host images ps =
     (Mock.MockPredictor images, ps)) /\
  map text (fst out) = ["Hello from Surya"; "Hello from Surya"] /\
  warnings (log (snd out)) = 0.
Proof.
  cbv zeta. split; [reflexivity|].
  pose proof (mock_predictor_cells
                Mock.host Sample.model (Sample.backend true)
                [Sample.region_a; Sample.region_flat; Sample.region_left]
                Sample.start (fun images ps => eq_refl)) as H.
  cbv zeta in H. destruct H as [Hcells [_ [Hw _]]].
  split; [now rewrite Hcells | exact Hw].
Defined.


(** The worked example of the coordinate mapping holds bit for bit in
    doubles, and a predictor that fails to initialise fails the
    construction with its own exception. *)
Example worked_example_in_doubles :
  Double.cell_box 3
    {| Double.l := 50; Double.t := 100; Double.r := 150; Double.b := 200 |}
    (30, 60, 90, 120)%float =
  {| Double.l := 60; Double.t := 120; Double.r := 80; Double.b := 140 |}.
Proof. vm_compute. reflexivity. Qed.

Example broken_model_fails_construction :
  __init__ true SampleProcess.env_broken_model =
  Raise (ExcInstance "RuntimeError" "model files missing").
Proof. reflexivity. Qed.
